(** * Job aggregation and relevance scoring (backend/app/job_search.py)

    A shallow embedding of the job-search module: keyword generation,
    the three source adapters, merge and de-duplication, relevance
    scoring and the ranking entry point.

    Modelling conventions.
    - Python text is modelled by [string] (8-bit characters).  [lower],
      [strip] and [split] act on the ASCII range as CPython does; the
      characters above 127 are kept as they are, so statements about
      case folding speak about ASCII text.
    - JSON-shaped Python values are the inductive [pyval]; floating-point
      numbers are not part of the model.  A Python [dict] is an
      association list in insertion order.
    - A Python [set] of strings is a [gset string]; the order in which
      [list(set)] enumerates it is supplied by the environment.
    - The HTTP providers are supplied by the environment as functions of
      the ordinal of the call, the keyword and the location. *)

From Stdlib Require Import ZArith Ascii String DecimalString.
From stdpp Require Import base decidable option list sorting gmap sets strings.

Local Open Scope Z_scope.
Set Warnings "-register-all".

(** ** Text primitives *)

Module PyStr.

(** [str.isspace] on the ASCII range: TAB, LF, VT, FF, CR, the four
    separators 0x1c..0x1f and the blank. *)
Definition is_space (c : ascii) : bool :=
  let n := nat_of_ascii c in
  ((9 <=? n)%nat && (n <=? 13)%nat)
  || ((28 <=? n)%nat && (n <=? 31)%nat)
  || (n =? 32)%nat.

Definition lower_char (c : ascii) : ascii :=
  let n := nat_of_ascii c in
  if ((65 <=? n)%nat && (n <=? 90)%nat) then ascii_of_nat (n + 32) else c.

(** [s.lower()] *)
Fixpoint lower (s : string) : string :=
  match s with
  | EmptyString => EmptyString
  | String c s' => String (lower_char c) (lower s')
  end.

(** [s.lstrip()] *)
Fixpoint lstrip (s : string) : string :=
  match s with
  | EmptyString => EmptyString
  | String c s' => if is_space c then lstrip s' else s
  end.

(** [s.rstrip()] *)
Fixpoint rstrip (s : string) : string :=
  match s with
  | EmptyString => EmptyString
  | String c s' =>
      match rstrip s' with
      | EmptyString => if is_space c then EmptyString else String c EmptyString
      | r => String c r
      end
  end.

(** [s.strip()] *)
Definition strip (s : string) : string := rstrip (lstrip s).

(** [s.split()]: the maximal runs of non-blank characters, in order.
    [cur] is the run being read. *)
Fixpoint split_go (cur : string) (s : string) : list string :=
  match s with
  | EmptyString => if String.eqb cur "" then [] else [cur]
  | String c s' =>
      if is_space c
      then (if String.eqb cur "" then [] else [cur]) ++ split_go "" s'
      else split_go (cur +:+ String c "") s'
  end.

Definition split (s : string) : list string := split_go "" s.

(** [sub in s] on strings. *)
Fixpoint contains (s sub : string) : bool :=
  String.prefix sub s
  || match s with
     | EmptyString => false
     | String _ s' => contains s' sub
     end.

(** [s[:n]] *)
Fixpoint take (n : nat) (s : string) : string :=
  match n, s with
  | O, _ => EmptyString
  | _, EmptyString => EmptyString
  | S n', String c s' => String c (take n' s')
  end.

(** [x in [a, b, ...]] for a list of string literals. *)
Definition among (x : string) (l : list string) : bool :=
  bool_decide (x ∈ l).

End PyStr.

(** ** Python values *)

Inductive pyval : Type :=
| PNone
| PBool (b : bool)
| PInt (z : Z)
| PStr (s : string)
| PList (l : list pyval)
| PDict (d : list (string * pyval)).

(** A Python [dict] with string keys, in insertion order. *)
Definition dict : Type := list (string * pyval).

Module Py.

(** Truth value of an object, as used by [if x] and [x and ...]. *)
Definition truthy (v : pyval) : bool :=
  match v with
  | PNone => false
  | PBool b => b
  | PInt z => negb (z =? 0)
  | PStr s => negb (String.eqb s "")
  | PList l => match l with [] => false | _ => true end
  | PDict d => match d with [] => false | _ => true end
  end.

(** [d.get(k)] on a dictionary; [None] when the key is absent. *)
Fixpoint dict_get (d : dict) (k : string) : option pyval :=
  match d with
  | [] => None
  | (k', v) :: d' => if String.eqb k' k then Some v else dict_get d' k
  end.

(** [d.get(k, default)] *)
Definition get_or (d : dict) (k : string) (default : pyval) : pyval :=
  match dict_get d k with Some v => v | None => default end.

(** [d[k] = v]: an existing key keeps its place, a new key goes last. *)
Fixpoint dict_set (d : dict) (k : string) (v : pyval) : dict :=
  match d with
  | [] => [(k, v)]
  | (k', v') :: d' =>
      if String.eqb k' k then (k', v) :: d' else (k', v') :: dict_set d' k v
  end.

(** Decimal rendering of an integer, [str(n)]. *)
Definition str_of_int (z : Z) : string :=
  DecimalString.NilZero.string_of_int (Z.to_int z).

Definition hex_digit (n : nat) : ascii :=
  nth n ["0"; "1"; "2"; "3"; "4"; "5"; "6"; "7";
         "8"; "9"; "a"; "b"; "c"; "d"; "e"; "f"]%char "0"%char.

Definition squote : ascii := "039"%char.
Definition dquote : ascii := "034"%char.
Definition backslash : ascii := "092"%char.

Fixpoint has_char (q : ascii) (s : string) : bool :=
  match s with
  | EmptyString => false
  | String c s' => Ascii.eqb c q || has_char q s'
  end.

(** One character of [repr(s)], [q] being the enclosing quote. *)
Definition repr_char (q c : ascii) : string :=
  let n := nat_of_ascii c in
  if Ascii.eqb c q || Ascii.eqb c backslash then String backslash (String c "")
  else if (n =? 9)%nat then String backslash "t"
  else if (n =? 10)%nat then String backslash "n"
  else if (n =? 13)%nat then String backslash "r"
  else if (n <? 32)%nat || (n =? 127)%nat
       then String backslash
              (String "x" (String (hex_digit (n / 16)) (String (hex_digit (n mod 16)) "")))
  else String c "".

Fixpoint repr_chars (q : ascii) (s : string) : string :=
  match s with
  | EmptyString => EmptyString
  | String c s' => repr_char q c +:+ repr_chars q s'
  end.

(** [repr(s)] of a string: single quotes unless the text has a single
    quote and no double quote. *)
Definition repr_str (s : string) : string :=
  let q := if has_char squote s && negb (has_char dquote s) then dquote else squote in
  String q (repr_chars q s +:+ String q "").

(** [repr(v)] *)
Fixpoint repr (v : pyval) : string :=
  match v with
  | PNone => "None"
  | PBool true => "True"
  | PBool false => "False"
  | PInt z => str_of_int z
  | PStr s => repr_str s
  | PList l =>
      "[" +:+
      (fix items (l : list pyval) : string :=
         match l with
         | [] => ""
         | x :: l' =>
             match l' with
             | [] => repr x
             | _ :: _ => repr x +:+ ", " +:+ items l'
             end
         end) l +:+ "]"
  | PDict d =>
      "{" +:+
      (fix items (d : list (string * pyval)) : string :=
         match d with
         | [] => ""
         | (k, x) :: d' =>
             match d' with
             | [] => repr_str k +:+ ": " +:+ repr x
             | _ :: _ => repr_str k +:+ ": " +:+ repr x +:+ ", " +:+ items d'
             end
         end) d +:+ "}"
  end.

(** [str(v)] *)
Definition str (v : pyval) : string :=
  match v with
  | PStr s => s
  | _ => repr v
  end.

Definition digit_val (c : ascii) : option Z :=
  let n := nat_of_ascii c in
  if ((48 <=? n)%nat && (n <=? 57)%nat) then Some (Z.of_nat n - 48) else None.

(** Digits of a decimal literal; a single underscore is allowed
    between two digits.  [prev] tells whether the last character read
    was a digit. *)
Fixpoint parse_digits (acc : Z) (prev : bool) (s : string) : option Z :=
  match s with
  | EmptyString => if prev then Some acc else None
  | String c s' =>
      match digit_val c with
      | Some d => parse_digits (acc * 10 + d) true s'
      | None =>
          if Ascii.eqb c "_"%char && prev then parse_digits acc false s' else None
      end
  end.

(** [int(s)] on a string: blanks around, an optional sign, digits. *)
Definition int_of_str (s : string) : option Z :=
  match PyStr.strip s with
  | String "+"%char r => parse_digits 0 false r
  | String "-"%char r => Z.opp <$> parse_digits 0 false r
  | t => parse_digits 0 false t
  end.

(** [int(v)]; [None] stands for the raised [ValueError]/[TypeError]. *)
Definition int (v : pyval) : option Z :=
  match v with
  | PInt z => Some z
  | PBool b => Some (if b then 1 else 0)
  | PStr s => int_of_str s
  | PNone | PList _ | PDict _ => None
  end.

(** Items visited by [for x in v]; [None] when [v] is not iterable. *)
Definition iter (v : pyval) : option (list pyval) :=
  match v with
  | PList l => Some l
  | PStr s => Some ((fun c => PStr (String c "")) <$> list_ascii_of_string s)
  | PDict d => Some ((fun kv => PStr kv.1) <$> d)
  | PNone | PBool _ | PInt _ => None
  end.

(** [v.get(k, default)] on an arbitrary object: only dictionaries have
    the method, everything else raises [AttributeError]. *)
Definition obj_get (v : pyval) (k : string) (default : pyval) : option pyval :=
  match v with
  | PDict d => Some (get_or d k default)
  | _ => None
  end.

(** [v[:n]]: strings and lists can be sliced, the rest raises. *)
Definition slice_to (n : nat) (v : pyval) : option pyval :=
  match v with
  | PStr s => Some (PStr (PyStr.take n s))
  | PList l => Some (PList (firstn n l))
  | _ => None
  end.

End Py.

(** ** The environment of a search *)

(** What one HTTP call gives back: the call itself raises, or a response
    arrives with a status code and a body whose JSON decoding ([r.json()])
    either gives a value or raises ([None]). *)
Inductive http_result : Type :=
| ConnectionError
| Response (status_code : Z) (json : option pyval).

(** A provider answers the [i]-th call of an adapter for a keyword and a
    location. *)
Definition provider : Type := nat → string → string → http_result.

Record world : Type := {
  set_order : gset string → list string;   (* order of [list(set)] *)
  adzuna : provider;
  jooble : provider;
  serpapi : provider
}.

(** How a block of statements ends. *)
Inductive outcome : Type := Completed | Raised.

(** ** generate_keywords *)

Definition null_words : list string := ["null"; "none"; ""].

(** [l.remove(x)] for an [x] known to occur: drops the first occurrence. *)
Fixpoint remove_first (x : string) (l : list string) : list string :=
  match l with
  | [] => []
  | y :: l' => if String.eqb y x then l' else y :: remove_first x l'
  end.

Definition add_role (role : pyval) (keywords : gset string) : gset string :=
  match role with
  | PStr r =>
      if Py.truthy role && negb (PyStr.among (PyStr.lower r) null_words)
      then {[PyStr.strip r]} ∪ keywords else keywords
  | _ => keywords
  end.

(** Loop body for skills and for certifications. *)
Definition add_long_text (keywords : gset string) (x : pyval) : gset string :=
  match x with
  | PStr t =>
      if Py.truthy x && (2 <? String.length (PyStr.strip t))%nat
      then {[PyStr.strip t]} ∪ keywords else keywords
  | _ => keywords
  end.

(** [v = d.get(k, ""); if v and isinstance(v, str): keywords.add(v.strip())] *)
Definition add_field (d : dict) (k : string) (keywords : gset string) : gset string :=
  let v := Py.get_or d k (PStr "") in
  match v with
  | PStr t => if Py.truthy v then {[PyStr.strip t]} ∪ keywords else keywords
  | _ => keywords
  end.

Definition add_experience (keywords : gset string) (exp : pyval) : gset string :=
  match exp with
  | PDict d => add_field d "company" (add_field d "role" keywords)
  | _ => keywords
  end.

Definition add_education (keywords : gset string) (edu : pyval) : gset string :=
  match edu with
  | PDict d => add_field d "degree" keywords
  | _ => keywords
  end.

(** [for x in profile.get(k, []): ...] guarded by [isinstance(..., list)]. *)
Definition for_list_field {S : Type} (profile : dict) (k : string)
    (body : S → pyval → S) (st : S) : S :=
  match Py.get_or profile k (PList []) with
  | PList l => foldl body st l
  | _ => st
  end.

Definition keep_keyword (k : string) : bool :=
  negb (String.eqb k "")
  && negb (PyStr.among (PyStr.lower k) ["null"; "none"; "n/a"; ""]).

Definition role_first (role : pyval) (keyword_list : list string) : list string :=
  match role with
  | PStr r =>
      if Py.truthy role && bool_decide (r ∈ keyword_list)
      then r :: remove_first r keyword_list
      else keyword_list
  | _ => keyword_list
  end.

Definition generate_keywords (order : gset string → list string)
    (profile : dict) : list string :=
  let keywords : gset string := ∅ in
  let role := Py.get_or profile "role" (PStr "") in
  let keywords := add_role role keywords in
  let keywords := for_list_field profile "skills" add_long_text keywords in
  let keywords := for_list_field profile "experience_details" add_experience keywords in
  let keywords := for_list_field profile "education" add_education keywords in
  let keywords := for_list_field profile "certifications" add_long_text keywords in
  let keywords := filter (λ k, keep_keyword k = true) keywords in
  let keyword_list := order keywords in
  let keyword_list := role_first role keyword_list in
  take 8 keyword_list.

(** ** Source adapters *)

(** The record built from one Adzuna listing; [None] when building it
    raises. *)
Definition adzuna_record (location : string) (job : pyval) : option dict :=
  title ← Py.obj_get job "title" (PStr "");
  company_obj ← Py.obj_get job "company" (PDict []);
  company ← Py.obj_get company_obj "display_name" (PStr "N/A");
  location_obj ← Py.obj_get job "location" (PDict []);
  loc ← Py.obj_get location_obj "display_name" (PStr location);
  url ← Py.obj_get job "redirect_url" (PStr "");
  description ← Py.obj_get job "description" (PStr "") ≫= Py.slice_to 300;
  salary ← Py.obj_get job "salary_max" (PStr "Not specified");
  Some [("source", PStr "Adzuna"); ("title", title); ("company", company);
        ("location", loc); ("url", url); ("description", description);
        ("salary", salary)].

Definition jooble_record (location : string) (job : pyval) : option dict :=
  title ← Py.obj_get job "title" (PStr "");
  company ← Py.obj_get job "company" (PStr "N/A");
  loc ← Py.obj_get job "location" (PStr location);
  url ← Py.obj_get job "link" (PStr "");
  description ← Py.obj_get job "snippet" (PStr "") ≫= Py.slice_to 300;
  salary ← Py.obj_get job "salary" (PStr "Not specified");
  Some [("source", PStr "Jooble"); ("title", title); ("company", company);
        ("location", loc); ("url", url); ("description", description);
        ("salary", salary)].

(** [len(v)] *)
Definition py_len (v : pyval) : option nat :=
  match v with
  | PStr t => Some (String.length t)
  | PList l => Some (length l)
  | PDict d => Some (length d)
  | PNone | PBool _ | PInt _ => None
  end.

(** [v[0]]; a dictionary with string keys has no key [0]. *)
Definition py_first (v : pyval) : option pyval :=
  match v with
  | PList (x :: _) => Some x
  | PStr (String c _) => Some (PStr (String c ""))
  | _ => None
  end.

Definition serpapi_apply_link (job : pyval) : option pyval :=
  let apply_link := PStr "" in
  apply_options ← Py.obj_get job "apply_options" (PList []);
  if Py.truthy apply_options then
    n ← py_len apply_options;
    if (0 <? n)%nat
    then py_first apply_options ≫= (λ o, Py.obj_get o "link" (PStr ""))
    else Some apply_link
  else Some apply_link.

Definition serpapi_record (location : string) (job : pyval) : option dict :=
  apply_link ← serpapi_apply_link job;
  title ← Py.obj_get job "title" (PStr "");
  company ← Py.obj_get job "company_name" (PStr "N/A");
  loc ← Py.obj_get job "location" (PStr location);
  description ← Py.obj_get job "description" (PStr "") ≫= Py.slice_to 300;
  Some [("source", PStr "Google Jobs"); ("title", title); ("company", company);
        ("location", loc); ("url", apply_link); ("description", description);
        ("salary", PStr "Not specified")].

(** [for job in items: results.append(record(job))] *)
Fixpoint append_records (mk : pyval → option dict) (items : list pyval)
    (results : list dict) : outcome * list dict :=
  match items with
  | [] => (Completed, results)
  | job :: rest =>
      match mk job with
      | None => (Raised, results)
      | Some r => append_records mk rest (results ++ [r])
      end
  end.

(** The body of the keyword loop: one request and the records of its
    answer.  [key] is the field of the payload that holds the listings. *)
Definition query_keyword (key : string) (mk : string → pyval → option dict)
    (prov : provider) (location : string)
    (i : nat) (kw : string) (results : list dict) : outcome * list dict :=
  match prov i kw location with
  | ConnectionError => (Raised, results)
  | Response status_code json =>
      if status_code =? 200 then
        match json with
        | None => (Raised, results)
        | Some data =>
            match Py.obj_get data key (PList []) ≫= Py.iter with
            | None => (Raised, results)
            | Some items => append_records (mk location) items results
            end
        end
      else (Completed, results)
  end.

(** [for kw in ...: body]; an exception in the body leaves the loop. *)
Fixpoint keyword_loop (body : nat → string → list dict → outcome * list dict)
    (i : nat) (kws : list string) (results : list dict) : outcome * list dict :=
  match kws with
  | [] => (Completed, results)
  | kw :: rest =>
      match body i kw results with
      | (Raised, results') => (Raised, results')
      | (Completed, results') => keyword_loop body (S i) rest results'
      end
  end.

(** [results = []; try: <loop> except Exception: print(...); return results] *)
Definition fetch_with (key : string) (mk : string → pyval → option dict)
    (prov : provider) (keywords : list string) (location : string) : list dict :=
  let results := [] in
  let '(_, results) :=
    keyword_loop (query_keyword key mk prov location) 0 (take 3 keywords) results in
  results.

Definition fetch_adzuna : provider → list string → string → list dict :=
  fetch_with "results" adzuna_record.

Definition fetch_jooble : provider → list string → string → list dict :=
  fetch_with "jobs" jooble_record.

Definition fetch_serpapi : provider → list string → string → list dict :=
  fetch_with "jobs_results" serpapi_record.

(** ** merge_results *)

Definition job_key : Type := string * string * string.

Definition uid_of (job : dict) : job_key :=
  (PyStr.strip (PyStr.lower (Py.str (Py.get_or job "title" (PStr "")))),
   PyStr.strip (PyStr.lower (Py.str (Py.get_or job "company" (PStr "")))),
   PyStr.strip (PyStr.lower (Py.str (Py.get_or job "location" (PStr ""))))).

(** [job.get("title")] as a condition. *)
Definition has_title (job : dict) : bool :=
  Py.truthy (Py.get_or job "title" PNone).

Definition merge_step (st : gset job_key * list dict) (job : dict)
    : gset job_key * list dict :=
  let '(seen, final) := st in
  let uid := uid_of job in
  if bool_decide (uid ∉ seen) && has_title job
  then ({[uid]} ∪ seen, final ++ [job])
  else (seen, final).

Definition merge_results (sources : list (list dict)) : list dict :=
  let seen : gset job_key := ∅ in
  let final : list dict := [] in
  (foldl (λ st source, foldl merge_step st source) (seen, final) sources).2.

(** ** score_relevance *)

(** Every block of the scorer takes the running [score] and gives it
    back, as the statements [score += n] do. *)

Definition score_role (job_title job_desc : string) (profile : dict) (score : Z) : Z :=
  let role := Py.get_or profile "role" (PStr "") in
  match role with
  | PStr r =>
      if Py.truthy role && negb (PyStr.among (PyStr.lower r) null_words) then
        let role_lower := PyStr.lower r in
        let score := if PyStr.contains job_title role_lower then score + 15 else score in
        let score := if PyStr.contains job_desc role_lower then score + 7 else score in
        score
      else score
  | _ => score
  end.

Definition skill_points (job_title job_desc name : string) (score : Z) : Z :=
  let score := if PyStr.contains job_title name then score + 10 else score in
  let score := if PyStr.contains job_desc name then score + 4 else score in
  score.

Definition score_skill (job_title job_desc : string) (score : Z) (skill : pyval) : Z :=
  match skill with
  | PStr t =>
      if negb (PyStr.among (PyStr.lower t) null_words)
      then skill_points job_title job_desc (PyStr.lower t) score
      else score
  | PDict d =>
      let skill_name :=
        PyStr.lower (Py.str (Py.get_or d "name" (Py.get_or d "skill" (PStr "")))) in
      if negb (String.eqb skill_name "") && negb (PyStr.among skill_name null_words)
      then skill_points job_title job_desc skill_name score
      else score
  | _ => score
  end.

Definition either_points (job_title job_desc name : string) (n : Z) (score : Z) : Z :=
  if PyStr.contains job_title name || PyStr.contains job_desc name
  then score + n else score.

Definition score_cert (job_title job_desc : string) (score : Z) (cert : pyval) : Z :=
  match cert with
  | PStr t =>
      if negb (PyStr.among (PyStr.lower t) null_words)
      then either_points job_title job_desc (PyStr.lower t) 8 score
      else score
  | PDict d =>
      let cert_name :=
        PyStr.lower (Py.str (Py.get_or d "name" (Py.get_or d "certification" (PStr "")))) in
      if negb (String.eqb cert_name "") && negb (PyStr.among cert_name null_words)
      then either_points job_title job_desc cert_name 8 score
      else score
  | _ => score
  end.

Definition score_edu (job_title job_desc : string) (score : Z) (edu : pyval) : Z :=
  match edu with
  | PDict d =>
      let degree := Py.get_or d "degree" (PStr "") in
      match degree with
      | PStr t =>
          if Py.truthy degree then
            let degree_lower := PyStr.lower t in
            if negb (String.eqb degree_lower "")
               && negb (PyStr.among degree_lower null_words)
            then either_points job_title job_desc degree_lower 6 score
            else score
          else score
      | _ => score
      end
  | _ => score
  end.

(** The [if]/[elif] chain under [try]; [years] is the converted value. *)
Definition experience_band (job_title : string) (years : Z) (score : Z) : Z :=
  if (5 <=? years)
     && (PyStr.contains job_title "senior" || PyStr.contains job_title "lead")
  then score + 5
  else if (2 <=? years) && (years <? 5)
          && (PyStr.contains job_title "mid" || PyStr.contains job_title "intermediate")
  then score + 5
  else if (years <? 2)
          && (PyStr.contains job_title "junior" || PyStr.contains job_title "entry"
              || PyStr.contains job_title "fresher")
  then score + 5
  else score.

Definition score_experience (job_title : string) (profile : dict) (score : Z) : Z :=
  let experience_years := Py.get_or profile "experience_years" PNone in
  if Py.truthy experience_years
     && negb (PyStr.among (PyStr.lower (Py.str experience_years)) ["null"; "none"; "0"])
  then
    match Py.int experience_years with
    | Some years => experience_band job_title years score
    | None => score                               (* except: pass *)
    end
  else score.

(** [str(d.get("location", "")).lower() if d.get("location") else ""] *)
Definition location_text (d : dict) : string :=
  if Py.truthy (Py.get_or d "location" PNone)
  then PyStr.lower (Py.str (Py.get_or d "location" (PStr "")))
  else "".

(** The loop over the words of the profile location, left at the first
    word that matches. *)
Fixpoint score_location_parts (job_location : string) (parts : list string)
    (score : Z) : Z :=
  match parts with
  | [] => score
  | part :: rest =>
      if (2 <? String.length part)%nat && PyStr.contains job_location part
      then score + 3
      else score_location_parts job_location rest score
  end.

Definition score_location (job profile : dict) (score : Z) : Z :=
  let profile_location := location_text profile in
  let job_location := location_text job in
  if negb (String.eqb profile_location "")
     && negb (PyStr.among profile_location null_words)
  then
    let score :=
      if PyStr.contains job_location profile_location then score + 8 else score in
    let location_parts := PyStr.split profile_location in
    score_location_parts job_location location_parts score
  else score.

Definition score_lang (job_desc : string) (score : Z) (lang : pyval) : Z :=
  match lang with
  | PStr t =>
      if negb (PyStr.among (PyStr.lower t) ["null"; "none"; "english"])
      then (if PyStr.contains job_desc (PyStr.lower t) then score + 4 else score)
      else score
  | PDict d =>
      let lang_name :=
        PyStr.lower (Py.str (Py.get_or d "language" (Py.get_or d "name" (PStr "")))) in
      if negb (String.eqb lang_name "")
         && negb (PyStr.among lang_name ["null"; "none"; "english"])
      then (if PyStr.contains job_desc lang_name then score + 4 else score)
      else score
  | _ => score
  end.

Definition score_relevance (job profile : dict) : Z :=
  let score := 0 in
  let job_title := PyStr.lower (Py.str (Py.get_or job "title" (PStr ""))) in
  let job_desc := PyStr.lower (Py.str (Py.get_or job "description" (PStr ""))) in
  let score := score_role job_title job_desc profile score in
  let score := for_list_field profile "skills" (score_skill job_title job_desc) score in
  let score := for_list_field profile "certifications" (score_cert job_title job_desc) score in
  let score := for_list_field profile "education" (score_edu job_title job_desc) score in
  let score := score_experience job_title profile score in
  let score := score_location job profile score in
  let score := for_list_field profile "languages" (score_lang job_desc) score in
  score.

(** ** search_jobs *)

(** The sort key [x["relevance_score"]]; every record that reaches the
    sort carries an integer there. *)
Definition relevance_key (job : dict) : Z :=
  match Py.dict_get job "relevance_score" with
  | Some (PInt z) => z
  | _ => 0
  end.

(** [list.sort(key=..., reverse=True)]: a stable sort, largest key
    first, records with equal keys in their original order. *)
Fixpoint insert_desc (key : dict → Z) (x : dict) (l : list dict) : list dict :=
  match l with
  | [] => [x]
  | y :: l' => if key y <=? key x then x :: y :: l' else y :: insert_desc key x l'
  end.

Definition sort_desc (key : dict → Z) (l : list dict) : list dict :=
  foldr (insert_desc key) [] l.

Definition search_location (profile : dict) : string :=
  let location := Py.get_or profile "location" (PStr "") in
  if negb (Py.truthy location)
     || match location with
        | PStr t => PyStr.among (PyStr.lower t) null_words
        | _ => false
        end
  then "India"
  else Py.str location.

(** Body of the scoring loop. *)
Definition score_step (profile : dict) (min_score : Z)
    (scored_jobs : list dict) (job : dict) : list dict :=
  let relevance := score_relevance job profile in
  if min_score <=? relevance
  then scored_jobs ++ [Py.dict_set job "relevance_score" (PInt relevance)]
  else scored_jobs.

(** Scoring, filtering and sorting of the merged jobs. *)
Definition rank_jobs (profile : dict) (min_score : Z) (all_jobs : list dict) : list dict :=
  let scored_jobs := foldl (score_step profile min_score) [] all_jobs in
  sort_desc relevance_key scored_jobs.

(** The merged jobs of one search. *)
Definition collect_jobs (w : world) (profile : dict) : list dict :=
  let keywords := generate_keywords (set_order w) profile in
  let location := search_location profile in
  let adzuna_jobs := fetch_adzuna (adzuna w) keywords location in
  let jooble_jobs := fetch_jooble (jooble w) keywords location in
  let serpapi_jobs := fetch_serpapi (serpapi w) keywords location in
  merge_results [adzuna_jobs; jooble_jobs; serpapi_jobs].

Definition search_jobs (w : world) (profile : dict) (min_score : Z) : list dict :=
  rank_jobs profile min_score (collect_jobs w profile).

(** ** Notions used in the statements *)

(** A block of the scorer that adds a fixed, non-negative number of
    points to the running score. *)
Definition adds (f : Z → Z) : Prop := ∃ n, 0 ≤ n ∧ ∀ s, f s = s + n.

(** The lower-cased title and description the scorer compares against. *)
Definition job_title_of (job : dict) : string :=
  PyStr.lower (Py.str (Py.get_or job "title" (PStr ""))).

Definition job_desc_of (job : dict) : string :=
  PyStr.lower (Py.str (Py.get_or job "description" (PStr ""))).

(** The profile with its list of skills replaced. *)
Definition with_skills (profile : dict) (skills : list pyval) : dict :=
  Py.dict_set profile "skills" (PList skills).

(** A job with its score attached, as the scoring loop leaves it. *)
Definition annotate (profile : dict) (job : dict) : dict :=
  Py.dict_set job "relevance_score" (PInt (score_relevance job profile)).

(** The order of the ranked output: no later record has a larger score. *)
Definition ranks_before (a b : dict) : Prop := relevance_key b ≤ relevance_key a.

(** The merged jobs that reach the threshold, in merge order. *)
Definition reaching (profile : dict) (min_score : Z) (merged : list dict) : list dict :=
  filter (λ j, min_score ≤ score_relevance j profile) merged.

(** The records of a list that carry the score [k], in their order. *)
Definition with_score (k : Z) (l : list dict) : list dict :=
  filter (λ r, relevance_key r = k) l.

(** [job] has a title and no titled record of [before] has its key. *)
Definition first_of_its_key (before : list dict) (job : dict) : bool :=
  has_title job
  && forallb (λ r, negb (has_title r && bool_decide (uid_of r = uid_of job))) before.

(** The records of [l] that are the first titled record of their key,
    [before] being the records that precede [l]. *)
Fixpoint first_occurrences (before : list dict) (l : list dict) : list dict :=
  match l with
  | [] => []
  | job :: rest =>
      (if first_of_its_key before job then [job] else [])
      ++ first_occurrences (before ++ [job]) rest
  end.

(** [seen] holds the keys of the titled records of [before]. *)
Definition seen_inv (seen : gset job_key) (before : list dict) : Prop :=
  ∀ u, u ∈ seen ↔ ∃ b, b ∈ before ∧ has_title b = true ∧ uid_of b = u.

(** One keyword query run on its own: how it ends and the records it
    appends. *)
Definition query_alone (key : string) (mk : string → pyval → option dict)
    (prov : provider) (location : string) : nat → string → outcome * list dict :=
  λ i kw, query_keyword key mk prov location i kw [].

(** The records gathered by the queries [i], [i+1], ... for [kws], up to
    and including the first query that raises. *)
Fixpoint collected_until_raise (q : nat → string → outcome * list dict)
    (i : nat) (kws : list string) : list dict :=
  match kws with
  | [] => []
  | kw :: rest =>
      match q i kw with
      | (Raised, recs) => recs
      | (Completed, recs) => recs ++ collected_until_raise q (S i) rest
      end
  end.

(** The records of all the queries [i], [i+1], ... for [kws], in order. *)
Fixpoint all_records (q : nat → string → outcome * list dict)
    (i : nat) (kws : list string) : list dict :=
  match kws with
  | [] => []
  | kw :: rest => (q i kw).2 ++ all_records q (S i) rest
  end.

(** A call that fails before any record is made: the request raises, or
    the body of a 200 response cannot be decoded. *)
Definition call_fails (r : http_result) : bool :=
  match r with
  | ConnectionError => true
  | Response status_code None => status_code =? 200
  | Response _ (Some _) => false
  end.

(** A provider all of whose calls fail. *)
Definition fails_always (prov : provider) : Prop :=
  ∀ i kw location, call_fails (prov i kw location) = true.

(** What each adapter returns in a search for [profile]. *)
Definition adzuna_jobs (w : world) (profile : dict) : list dict :=
  fetch_adzuna (adzuna w) (generate_keywords (set_order w) profile)
    (search_location profile).

Definition jooble_jobs (w : world) (profile : dict) : list dict :=
  fetch_jooble (jooble w) (generate_keywords (set_order w) profile)
    (search_location profile).

Definition serpapi_jobs (w : world) (profile : dict) : list dict :=
  fetch_serpapi (serpapi w) (generate_keywords (set_order w) profile)
    (search_location profile).

(** ** Sample data *)

Module Sample.

Definition profile : dict :=
  [("role", PStr "Software Engineer");
   ("skills", PList [PStr "Python"]);
   ("location", PStr "Pune")].

Definition job : dict :=
  [("title", PStr "Senior Software Engineer");
   ("description", PStr "Python required");
   ("company", PStr "X");
   ("location", PStr "Pune, India")].

(** The listing as Adzuna would send it. *)
Definition adzuna_listing : pyval :=
  PDict [("title", PStr "Senior Software Engineer");
         ("description", PStr "Python required");
         ("company", PDict [("display_name", PStr "X")]);
         ("location", PDict [("display_name", PStr "Pune, India")])].

(** The record the Adzuna adapter makes of it. *)
Definition adzuna_job : dict :=
  [("source", PStr "Adzuna");
   ("title", PStr "Senior Software Engineer");
   ("company", PStr "X");
   ("location", PStr "Pune, India");
   ("url", PStr "");
   ("description", PStr "Python required");
   ("salary", PStr "Not specified")].

Definition one_listing : provider :=
  λ _ kw _,
    if String.eqb kw "Software Engineer"
    then Response 200 (Some (PDict [("results", PList [adzuna_listing])]))
    else Response 200 (Some (PDict [("results", PList [])])).

Definition unreachable : provider := λ _ _ _, ConnectionError.

(** The request for "driver" raises, every other keyword gets the
    listing. *)
Definition driver_unreachable : provider :=
  λ _ kw _,
    if String.eqb kw "driver" then ConnectionError
    else Response 200 (Some (PDict [("results", PList [adzuna_listing])])).

(** The keyword "cook" gets a 404, every other keyword the listing. *)
Definition cook_not_found : provider :=
  λ _ kw _,
    if String.eqb kw "cook" then Response 404 None
    else Response 200 (Some (PDict [("results", PList [adzuna_listing])])).

Definition unavailable : provider := λ _ _ _, Response 503 None.

(** One adapter answers with the single listing, the second cannot be
    reached and the third answers 503. *)
Definition one_job_world : world :=
  {| set_order := elements;
     adzuna := one_listing;
     jooble := unreachable;
     serpapi := unavailable |}.

Definition driver_a : dict :=
  [("title", PStr "Driver"); ("company", PStr "A"); ("location", PStr "Pune")].

Definition driver_b : dict :=
  [("title", PStr "driver"); ("company", PStr "a"); ("location", PStr "pune")].

(** A record with an empty title and one whose title is blank. *)
Definition untitled : dict :=
  [("title", PStr ""); ("company", PStr "A"); ("location", PStr "Pune")].

Definition blank_titled : dict :=
  [("title", PStr "  "); ("company", PStr "A"); ("location", PStr "Pune")].

(** A role with blanks around it. *)
Definition padded_role_profile : dict :=
  [("role", PStr " Driver "); ("skills", PList [PStr "Cooking"])].

End Sample.

(** ** Further notions *)

(** The set of keywords gathered from the profile, before the null-like
    ones are filtered out. *)
Definition collected_keywords (profile : dict) : gset string :=
  for_list_field profile "certifications" add_long_text
    (for_list_field profile "education" add_education
       (for_list_field profile "experience_details" add_experience
          (for_list_field profile "skills" add_long_text
             (add_role (Py.get_or profile "role" (PStr "")) ∅)))).

(** The keys of a record made by an adapter, in order. *)
Definition record_keys : list string :=
  ["source"; "title"; "company"; "location"; "url"; "description"; "salary"].

(** What the records of the three adapters have in common: the seven
    keys in order, the name of the source, and a description of at most
    300 characters (or items, when the provider sent a list). *)
Definition well_shaped (source : string) (r : dict) : Prop :=
  r.*1 = record_keys
  ∧ Py.dict_get r "source" = Some (PStr source)
  ∧ match Py.get_or r "description" PNone with
    | PStr d => (String.length d ≤ 300)%nat
    | PList l => (length l ≤ 300)%nat
    | _ => False
    end.

(** The number of entries of a list field of the profile; 0 when the
    field is absent or not a list. *)
Definition list_field_length (profile : dict) (k : string) : Z :=
  match Py.get_or profile k (PList []) with
  | PList l => Z.of_nat (length l)
  | _ => 0
  end.

(** The most a profile can score: 15 + 7 for the role, 10 + 4 for each
    skill, 8 for each certification, 6 for each degree, 5 for the
    experience level, 8 + 3 for the location, 4 for each language. *)
Definition score_bound (profile : dict) : Z :=
  22 + 14 * list_field_length profile "skills"
  + 8 * list_field_length profile "certifications"
  + 6 * list_field_length profile "education"
  + 5 + 11
  + 4 * list_field_length profile "languages".

(** A block of the scorer that adds at most [c] points. *)
Definition adds_at_most (c : Z) (f : Z → Z) : Prop := ∀ s, f s ≤ s + c.

(** The records of a ranked list whose score is at least [m]. *)
Definition at_least (m : Z) (l : list dict) : list dict :=
  filter (λ r, m ≤ relevance_key r) l.

(** ** search_jobs_endpoint (main.py) *)

(** What the handler of [POST /search_jobs] does: it returns a body or
    raises an [HTTPException]. *)
Inductive reply : Type :=
| Returned (body : dict)
| HTTPException (status_code : Z) (detail : string).

(** [type(v).__name__] *)
Definition type_name (v : pyval) : string :=
  match v with
  | PNone => "NoneType"
  | PBool _ => "bool"
  | PInt _ => "int"
  | PStr _ => "str"
  | PList _ => "list"
  | PDict _ => "dict"
  end.

(** The handler.  [search_jobs] raises only at its first use of the
    profile, [profile.get], when the profile is not a dictionary; the
    handler turns that [AttributeError] into a 500. *)
Definition search_jobs_endpoint (w : world) (payload : dict) : reply :=
  let profile := Py.get_or payload "profile" PNone in
  if negb (Py.truthy profile)
  then HTTPException 400 "Profile data is required"
  else
    match profile with
    | PDict p =>
        let jobs := search_jobs w p 3 in
        Returned [("status", PStr "success");
                  ("jobs", PList (PDict <$> jobs));
                  ("count", PInt (Z.of_nat (length jobs)))]
    | _ =>
        HTTPException 500
          ("Job search failed: '" +:+ type_name profile
           +:+ "' object has no attribute 'get'")
    end.

(** * Properties *)

(** ** Text *)

Section text.

Lemma str_app_nil_l (s : string) : "" +:+ s = s.
Proof. reflexivity. Qed.

Lemma str_app_cons (c : ascii) (s t : string) :
  String c s +:+ t = String c (s +:+ t).
Proof. reflexivity. Qed.

Lemma str_app_nil_r (s : string) : s +:+ "" = s.
Proof. induction s as [|c s IH]; [done|]. by rewrite str_app_cons, IH. Qed.

Lemma str_app_assoc (a b c : string) : (a +:+ b) +:+ c = a +:+ (b +:+ c).
Proof.
  induction a as [|x a IH]; [done|].
  by rewrite !str_app_cons, IH.
Qed.

Lemma prefix_iff (sub s : string) :
  String.prefix sub s = true ↔ ∃ b, s = sub +:+ b.
Proof.
  revert s. induction sub as [|x sub IH]; intros s.
  - split; [intros _; by exists s|intros _; by destruct s].
  - destruct s as [|y s]; simpl.
    + split; [done|]. intros [b Hb]. by rewrite str_app_cons in Hb.
    + destruct (ascii_dec x y) as [->|Hne].
      * rewrite IH. split; intros [b Hb]; exists b.
        -- by rewrite str_app_cons, Hb.
        -- rewrite str_app_cons in Hb. by simplify_eq.
      * split; [done|]. intros [b Hb]. rewrite str_app_cons in Hb.
        by simplify_eq.
Qed.

(** [sub in s] holds exactly when [s] reads [a ++ sub ++ b]. *)
Lemma contains_iff (s sub : string) :
  PyStr.contains s sub = true ↔ ∃ a b, s = a +:+ sub +:+ b.
Proof.
  induction s as [|c s IH]; cbn [PyStr.contains].
  - rewrite orb_false_r, prefix_iff. split.
    + intros [b Hb]. by exists "", b.
    + intros (a & b & Hab). exists b.
      destruct a; [done|by rewrite str_app_cons in Hab].
  - rewrite orb_true_iff, prefix_iff, IH. split.
    + intros [[b Hb]|(a & b & Hab)].
      * by exists "", b.
      * exists (String c a), b. by rewrite str_app_cons, Hab.
    + intros (a & b & Hab). destruct a as [|x a].
      * left. by exists b.
      * right. rewrite str_app_cons in Hab. simplify_eq. by exists a, b.
Qed.

Lemma contains_trans (s t u : string) :
  PyStr.contains t s = true → PyStr.contains u t = true →
  PyStr.contains u s = true.
Proof.
  rewrite !contains_iff. intros (a & b & ->) (a' & b' & ->).
  exists (a' +:+ a), (b +:+ b'). by rewrite !str_app_assoc.
Qed.

Lemma split_go_contained (cur s part : string) :
  part ∈ PyStr.split_go cur s → PyStr.contains (cur +:+ s) part = true.
Proof.
  revert cur. induction s as [|c s IH]; intros cur; simpl.
  - destruct (String.eqb cur ""); [by intros ?%elem_of_nil|].
    intros ->%list_elem_of_singleton. apply contains_iff.
    exists "", "". by rewrite str_app_nil_r.
  - destruct (PyStr.is_space c).
    + rewrite elem_of_app. intros [Hcur|Hrest].
      * destruct (String.eqb cur ""); [by apply elem_of_nil in Hcur|].
        apply list_elem_of_singleton in Hcur as ->. apply contains_iff.
        by exists "", (String c s).
      * apply IH, contains_iff in Hrest as (a & b & Hab).
        rewrite str_app_nil_l in Hab. apply contains_iff.
        exists (cur +:+ String c a), b.
        by rewrite Hab, !str_app_assoc, str_app_cons.
    + intros Hin%IH. by rewrite str_app_assoc in Hin.
Qed.

(** Every word of [s.split()] occurs in [s]. *)
Lemma split_contained (s part : string) :
  part ∈ PyStr.split s → PyStr.contains s part = true.
Proof. apply (split_go_contained ""). Qed.

Lemma among_false_iff (x : string) (l : list string) :
  PyStr.among x l = false ↔ x ∉ l.
Proof. unfold PyStr.among. by rewrite bool_decide_eq_false. Qed.

End text.

(** ** Dictionaries *)

Section dicts.

Lemma dict_get_set_eq (d : dict) (k : string) (v : pyval) :
  Py.dict_get (Py.dict_set d k v) k = Some v.
Proof.
  induction d as [|[k' v'] d IH]; simpl.
  - by rewrite String.eqb_refl.
  - destruct (String.eqb k' k) eqn:E; simpl; by rewrite E.
Qed.

Lemma dict_get_set_ne (d : dict) (k k' : string) (v : pyval) :
  k ≠ k' → Py.dict_get (Py.dict_set d k v) k' = Py.dict_get d k'.
Proof.
  intros Hne. induction d as [|[k0 v0] d IH]; simpl.
  - by apply String.eqb_neq in Hne as ->.
  - destruct (String.eqb k0 k) eqn:E; simpl; [|by rewrite IH].
    apply String.eqb_eq in E as ->.
    by apply String.eqb_neq in Hne as ->.
Qed.

Lemma get_or_set_eq (d : dict) (k : string) (v dflt : pyval) :
  Py.get_or (Py.dict_set d k v) k dflt = v.
Proof. unfold Py.get_or. by rewrite dict_get_set_eq. Qed.

Lemma get_or_set_ne (d : dict) (k k' : string) (v dflt : pyval) :
  k ≠ k' → Py.get_or (Py.dict_set d k v) k' dflt = Py.get_or d k' dflt.
Proof. intros. unfold Py.get_or. by rewrite dict_get_set_ne. Qed.

Lemma for_list_field_set_ne {S : Type} (d : dict) (k k' : string) (v : pyval)
    (body : S → pyval → S) (st : S) :
  k ≠ k' → for_list_field (Py.dict_set d k v) k' body st = for_list_field d k' body st.
Proof. intros. unfold for_list_field. by rewrite get_or_set_ne. Qed.

Lemma for_list_field_set_eq {S : Type} (d : dict) (k : string) (l : list pyval)
    (body : S → pyval → S) (st : S) :
  for_list_field (Py.dict_set d k (PList l)) k body st = foldl body st l.
Proof. unfold for_list_field. by rewrite get_or_set_eq. Qed.

End dicts.

(** ** The scorer *)

Section scorer.

Implicit Types (job profile : dict) (score : Z) (t d : string).

Lemma adds_ge (f : Z → Z) (s : Z) : adds f → s ≤ f s.
Proof. intros (n & Hn & Hf). rewrite Hf. lia. Qed.

Lemma adds_mono (f : Z → Z) (s s' : Z) : adds f → s ≤ s' → f s ≤ f s'.
Proof. intros (n & Hn & Hf) Hle. rewrite !Hf. lia. Qed.

Lemma adds_compose (f g : Z → Z) : adds f → adds g → adds (λ s, g (f s)).
Proof.
  intros (n & Hn & Hf) (m & Hm & Hg). exists (n + m). split; [lia|].
  intros s. rewrite Hg, Hf. lia.
Qed.

Lemma adds_foldl (step : Z → pyval → Z) (l : list pyval) :
  (∀ x, adds (λ s, step s x)) → adds (λ s, foldl step s l).
Proof.
  intros Hstep. induction l as [|x l IH]; simpl.
  - exists 0. split; [done|]. intros; lia.
  - apply (adds_compose (λ s, step s x) (λ s, foldl step s l)); auto.
Qed.

Lemma adds_for_list_field profile k (step : Z → pyval → Z) :
  (∀ x, adds (λ s, step s x)) → adds (for_list_field profile k step).
Proof.
  intros Hstep. unfold for_list_field.
  destruct (Py.get_or profile k (PList [])); try (exists 0; split; [done|intros; lia]).
  by apply adds_foldl.
Qed.

Lemma adds_score_role t d profile : adds (score_role t d profile).
Proof.
  exists (score_role t d profile 0). split; [|intros ?];
    unfold score_role; repeat case_match; lia.
Qed.

Lemma adds_score_skill t d x : adds (λ s, score_skill t d s x).
Proof.
  exists (score_skill t d 0 x). split; [|intros ?];
    unfold score_skill, skill_points; repeat case_match; lia.
Qed.

Lemma adds_score_cert t d x : adds (λ s, score_cert t d s x).
Proof.
  exists (score_cert t d 0 x). split; [|intros ?];
    unfold score_cert, either_points; repeat case_match; lia.
Qed.

Lemma adds_score_edu t d x : adds (λ s, score_edu t d s x).
Proof.
  exists (score_edu t d 0 x). split; [|intros ?];
    unfold score_edu, either_points; repeat case_match; lia.
Qed.

Lemma adds_score_lang d x : adds (λ s, score_lang d s x).
Proof.
  exists (score_lang d 0 x). split; [|intros ?];
    unfold score_lang; repeat case_match; lia.
Qed.

Lemma adds_score_experience t profile : adds (score_experience t profile).
Proof.
  exists (score_experience t profile 0). split; [|intros ?];
    unfold score_experience, experience_band; repeat case_match; lia.
Qed.

Lemma adds_score_location_parts jl parts :
  adds (score_location_parts jl parts).
Proof.
  induction parts as [|part parts IH]; simpl.
  - exists 0. split; [done|intros; lia].
  - case_match; [|done]. exists 3. split; [done|intros; lia].
Qed.

Lemma adds_score_location job profile : adds (score_location job profile).
Proof.
  unfold score_location. case_match; [|exists 0; split; [done|intros; lia]].
  apply (adds_compose
           (λ s, if PyStr.contains (location_text job) (location_text profile)
                 then s + 8 else s)
           (score_location_parts _ _)).
  - case_match; [exists 8|exists 0]; (split; [done|intros; lia]).
  - apply adds_score_location_parts.
Qed.

(** The blocks that follow the skills loop. *)
Lemma adds_after_skills job profile :
  adds (λ s,
    for_list_field profile "languages" (score_lang (job_desc_of job))
      (score_location job profile
        (score_experience (job_title_of job) profile
          (for_list_field profile "education"
             (score_edu (job_title_of job) (job_desc_of job))
             (for_list_field profile "certifications"
                (score_cert (job_title_of job) (job_desc_of job)) s))))).
Proof.
  set (t := job_title_of job). set (d := job_desc_of job).
  pose proof (adds_for_list_field profile "certifications" _ (adds_score_cert t d)) as H1.
  pose proof (adds_for_list_field profile "education" _ (adds_score_edu t d)) as H2.
  pose proof (adds_score_experience t profile) as H3.
  pose proof (adds_score_location job profile) as H4.
  pose proof (adds_for_list_field profile "languages" _ (adds_score_lang d)) as H5.
  pose proof (adds_compose _ _ H1 H2) as H12.
  pose proof (adds_compose _ _ H12 H3) as H123.
  pose proof (adds_compose _ _ H123 H4) as H1234.
  exact (adds_compose _ _ H1234 H5).
Qed.

Lemma score_relevance_nonneg job profile : 0 ≤ score_relevance job profile.
Proof.
  unfold score_relevance.
  etrans; [|apply (adds_ge _ _ (adds_after_skills job profile))].
  etrans; [|apply adds_ge, adds_for_list_field, adds_score_skill].
  apply adds_ge, adds_score_role.
Qed.

End scorer.

Section scorer_claims.

Implicit Types (job profile : dict) (score : Z) (t d : string).

Lemma score_role_set_skills t d profile v s :
  score_role t d (Py.dict_set profile "skills" v) s = score_role t d profile s.
Proof. unfold score_role. by rewrite get_or_set_ne. Qed.

Lemma score_experience_set_skills t profile v s :
  score_experience t (Py.dict_set profile "skills" v) s = score_experience t profile s.
Proof. unfold score_experience. by rewrite get_or_set_ne. Qed.

Lemma location_text_set_skills profile v :
  location_text (Py.dict_set profile "skills" v) = location_text profile.
Proof. unfold location_text. by rewrite !get_or_set_ne. Qed.

Lemma score_location_set_skills job profile v s :
  score_location job (Py.dict_set profile "skills" v) s = score_location job profile s.
Proof. unfold score_location. by rewrite location_text_set_skills. Qed.

(** Appending any entry to the skills never lowers the score. *)
Lemma score_relevance_skill_appended job profile ss skill :
  Py.get_or profile "skills" (PList []) = PList ss →
  score_relevance job profile
  ≤ score_relevance job (with_skills profile (ss ++ [skill])).
Proof.
  intros Hss. unfold score_relevance, with_skills.
  rewrite score_role_set_skills, for_list_field_set_eq.
  rewrite !for_list_field_set_ne by done.
  rewrite score_experience_set_skills, score_location_set_skills.
  apply (adds_mono _ _ _ (adds_after_skills job profile)).
  unfold for_list_field at 1. rewrite Hss, foldl_app. simpl.
  apply (adds_ge (λ s, score_skill _ _ s skill)), adds_score_skill.
Qed.

Lemma score_location_parts_hit jl parts s :
  (∀ part, part ∈ parts → PyStr.contains jl part = true) →
  (∃ part, part ∈ parts ∧ (2 < String.length part)%nat) →
  score_location_parts jl parts s = s + 3.
Proof.
  intros Hall (part & Hin & Hlen).
  induction parts as [|x parts IH]; [by apply elem_of_nil in Hin|].
  simpl. rewrite (Hall x) by left. rewrite andb_true_r.
  destruct (2 <? String.length x)%nat eqn:E; [done|].
  apply elem_of_cons in Hin as [->|Hin].
  - apply Nat.ltb_ge in E. lia.
  - apply IH; [|done]. intros ??. apply Hall. by right.
Qed.

(** C7 *)
(** [score_relevance] is a total function whose result is never
    negative, whatever the fields of the profile hold; when the
    conversion [int(experience_years)] fails, the experience block
    hands the running score back unchanged. *)
Theorem score_relevance_total_nonneg job profile :
  0 ≤ score_relevance job profile
  ∧ (Py.int (Py.get_or profile "experience_years" PNone) = None →
     ∀ t score, score_experience t profile score = score).
Proof.
  split; [apply score_relevance_nonneg|].
  intros Hint t score. unfold score_experience. rewrite Hint.
  by case_match.
Qed.

Lemma score_relevance_total_nonneg_witness :
  0 ≤ score_relevance Sample.job
        [("role", PStr "Driver"); ("experience_years", PStr "five")]
  ∧ score_experience "senior driver"
      [("role", PStr "Driver"); ("experience_years", PStr "five")] 7 = 7.
Proof.
  destruct (score_relevance_total_nonneg Sample.job
              [("role", PStr "Driver"); ("experience_years", PStr "five")])
    as [Hnn Hexp].
  split; [exact Hnn|]. apply Hexp. reflexivity.
Defined.

(** C8 *)
(** Appending to the skills of a profile a string whose lower-cased
    text occurs in the job's title or description never lowers the
    score of that job. *)
Theorem matching_skill_never_lowers_score job profile ss skill :
  Py.get_or profile "skills" (PList []) = PList ss →
  PyStr.contains (job_title_of job) (PyStr.lower skill)
  || PyStr.contains (job_desc_of job) (PyStr.lower skill) = true →
  score_relevance job profile
  ≤ score_relevance job (with_skills profile (ss ++ [PStr skill])).
Proof. intros Hss _. by apply score_relevance_skill_appended. Qed.

Lemma matching_skill_never_lowers_score_witness :
  score_relevance Sample.job Sample.profile
  ≤ score_relevance Sample.job
      (with_skills Sample.profile [PStr "Python"; PStr "Engineer"]).
Proof.
  apply (matching_skill_never_lowers_score Sample.job Sample.profile
           [PStr "Python"] "Engineer"); reflexivity.
Defined.

(** C10 *)
(** When the lower-cased profile location is not empty, "null" or
    "none", occurs in the lower-cased job location and has a word of
    more than two characters, the location block adds 8 for the full
    match and 3 for the word: 11 points. *)
Theorem full_location_match_adds_eleven job profile score part :
  location_text profile ≠ "" →
  location_text profile ≠ "null" →
  location_text profile ≠ "none" →
  PyStr.contains (location_text job) (location_text profile) = true →
  part ∈ PyStr.split (location_text profile) →
  (2 < String.length part)%nat →
  score_location job profile score = score + 11.
Proof.
  intros Hne Hnull Hnone Hsub Hpart Hlen. unfold score_location.
  assert (PyStr.among (location_text profile) null_words = false) as ->.
  { apply among_false_iff. unfold null_words.
    rewrite !elem_of_cons, elem_of_nil. tauto. }
  apply String.eqb_neq in Hne as ->. simpl. rewrite Hsub.
  rewrite score_location_parts_hit; [lia| |by exists part].
  intros x Hx. eapply contains_trans; [|exact Hsub].
  by apply split_contained.
Qed.

Lemma full_location_match_adds_eleven_witness :
  score_location Sample.job Sample.profile 19 = 19 + 11.
Proof.
  apply (full_location_match_adds_eleven Sample.job Sample.profile 19 "pune");
    try done.
  - by apply list_elem_of_singleton.
  - simpl. lia.
Defined.

End scorer_claims.

(** ** Ranking *)

Section ranking.

Implicit Types (job profile : dict) (l : list dict) (key : dict → Z).

Lemma insert_desc_perm key x l : insert_desc key x l ≡ₚ x :: l.
Proof.
  induction l as [|y l IH]; simpl; [done|].
  case_match; [done|]. rewrite IH. apply Permutation_swap.
Qed.

Lemma sort_desc_perm key l : sort_desc key l ≡ₚ l.
Proof.
  induction l as [|x l IH]; simpl; [done|].
  by rewrite insert_desc_perm, IH.
Qed.

Lemma insert_desc_sorted key x l :
  StronglySorted (λ a b, key b ≤ key a) l →
  StronglySorted (λ a b, key b ≤ key a) (insert_desc key x l).
Proof.
  induction 1 as [|y l Hl IH Hy]; simpl.
  - repeat constructor.
  - destruct (key y <=? key x) eqn:E.
    + apply Z.leb_le in E. constructor; [by constructor|].
      constructor; [done|]. eapply Forall_impl; [exact Hy|].
      simpl. intros; lia.
    + apply Z.leb_gt in E. constructor; [done|].
      rewrite insert_desc_perm. constructor; [lia|done].
Qed.

Lemma sort_desc_sorted key l :
  StronglySorted (λ a b, key b ≤ key a) (sort_desc key l).
Proof.
  induction l as [|x l IH]; simpl; [constructor|].
  by apply insert_desc_sorted.
Qed.

(** Inserting does not disturb the order among records of one key. *)
Lemma insert_desc_stable key x l k :
  filter (λ r, key r = k) (insert_desc key x l)
  = filter (λ r, key r = k) (x :: l).
Proof.
  induction l as [|y l IH]; simpl; [done|].
  destruct (key y <=? key x) eqn:E; [done|]. apply Z.leb_gt in E.
  rewrite (filter_cons _ y), IH, !filter_cons.
  repeat case_decide; try done; lia.
Qed.

Lemma sort_desc_stable key l k :
  filter (λ r, key r = k) (sort_desc key l) = filter (λ r, key r = k) l.
Proof.
  induction l as [|x l IH]; simpl; [done|].
  by rewrite insert_desc_stable, !filter_cons, IH.
Qed.

Lemma relevance_key_annotate profile job :
  relevance_key (annotate profile job) = score_relevance job profile.
Proof. unfold relevance_key, annotate. by rewrite dict_get_set_eq. Qed.

(** The scoring loop keeps the jobs that reach the threshold, in
    order, each with its score attached. *)
Lemma scoring_loop profile min_score acc l :
  foldl (score_step profile min_score) acc l
  = acc ++ (annotate profile <$> reaching profile min_score l).
Proof.
  unfold reaching. revert acc. induction l as [|j l IH]; intros acc; simpl.
  - by rewrite app_nil_r.
  - rewrite IH, filter_cons. unfold score_step.
    destruct (min_score <=? score_relevance j profile) eqn:E.
    + apply Z.leb_le in E. rewrite decide_True by done.
      by rewrite <- app_assoc.
    + apply Z.leb_gt in E. rewrite decide_False by lia. done.
Qed.

Lemma rank_jobs_sort profile min_score l :
  rank_jobs profile min_score l
  = sort_desc relevance_key (annotate profile <$> reaching profile min_score l).
Proof. unfold rank_jobs. by rewrite scoring_loop. Qed.

(** C1 *)
(** The result of [search_jobs] consists of exactly the merged jobs
    whose score reaches [min_score], each carrying that score; it is
    in descending order of score, records of equal score keep the
    order the merge gave them; and it is the empty list when no
    merged job reaches the threshold. *)
Theorem search_jobs_filters_and_ranks (w : world) profile (min_score : Z) :
  search_jobs w profile min_score
    ≡ₚ annotate profile <$> reaching profile min_score (collect_jobs w profile)
  ∧ Forall (λ r, ∃ j, j ∈ collect_jobs w profile
                      ∧ min_score ≤ score_relevance j profile
                      ∧ r = Py.dict_set j "relevance_score"
                              (PInt (score_relevance j profile))
                      ∧ relevance_key r = score_relevance j profile)
      (search_jobs w profile min_score)
  ∧ StronglySorted ranks_before (search_jobs w profile min_score)
  ∧ (∀ k, with_score k (search_jobs w profile min_score)
          = with_score k
              (annotate profile <$> reaching profile min_score (collect_jobs w profile)))
  ∧ (Forall (λ j, score_relevance j profile < min_score) (collect_jobs w profile) →
     search_jobs w profile min_score = []).
Proof.
  unfold search_jobs. rewrite rank_jobs_sort.
  set (merged := collect_jobs w profile).
  split_and!.
  - apply sort_desc_perm.
  - apply Forall_forall. intros r Hr.
    rewrite sort_desc_perm in Hr.
    apply list_elem_of_fmap in Hr as (j & -> & Hj).
    apply list_elem_of_filter in Hj as [Hscore Hj].
    exists j. split_and!; try done. apply relevance_key_annotate.
  - apply sort_desc_sorted.
  - intros k. apply sort_desc_stable.
  - intros Hall. unfold reaching.
    replace (filter _ merged) with (@nil dict); [done|].
    symmetry. induction Hall as [|j l Hj Hl IH]; [done|].
    rewrite filter_cons, decide_False by lia. done.
Qed.

Lemma search_jobs_filters_and_ranks_witness :
  search_jobs Sample.one_job_world Sample.profile 100 = [].
Proof.
  apply (search_jobs_filters_and_ranks Sample.one_job_world Sample.profile 100).
  replace (collect_jobs Sample.one_job_world Sample.profile)
    with [Sample.adzuna_job] by (vm_compute; reflexivity).
  apply Forall_singleton. vm_compute. reflexivity.
Defined.

(** C9 (as amended) *)
(** For the sample profile and job the score is 30: 15 for the role in
    the title, 4 for the skill in the description (the skill does not
    occur in the title), 8 for the location and 3 for its first word.
    The job passes [min_score = 5] and is the only record of the
    ranked output, both when it is the whole merged input and when one
    adapter delivers it. *)
Theorem sample_search_scores_thirty :
  score_relevance Sample.job Sample.profile = 30
  ∧ score_role (job_title_of Sample.job) (job_desc_of Sample.job) Sample.profile 0 = 15
  ∧ score_skill (job_title_of Sample.job) (job_desc_of Sample.job) 0 (PStr "Python") = 4
  ∧ score_location Sample.job Sample.profile 0 = 11
  ∧ rank_jobs Sample.profile 5 [Sample.job]
    = [Py.dict_set Sample.job "relevance_score" (PInt 30)]
  ∧ search_jobs Sample.one_job_world Sample.profile 5
    = [Py.dict_set Sample.adzuna_job "relevance_score" (PInt 30)].
Proof. split_and!; vm_compute; reflexivity. Qed.

(** The score of the sample job does not reach 37. *)
Lemma sample_score_below_37 :
  ¬ (37 ≤ score_relevance Sample.job Sample.profile).
Proof.
  replace (score_relevance Sample.job Sample.profile) with 30
    by (vm_compute; reflexivity).
  lia.
Qed.

End ranking.

(** ** Merging *)

Section merging.

Implicit Types (job r : dict) (before l final : list dict) (seen : gset job_key).

Lemma first_of_its_key_iff before job :
  first_of_its_key before job = true
  ↔ has_title job = true
    ∧ ∀ b, b ∈ before → has_title b = true → uid_of b ≠ uid_of job.
Proof.
  unfold first_of_its_key. rewrite andb_true_iff, forallb_forall.
  apply and_iff_compat_l. split.
  - intros H b Hb Ht Heq. apply list_elem_of_In, H in Hb.
    rewrite Ht, bool_decide_eq_true_2 in Hb; done.
  - intros H b Hb%list_elem_of_In. destruct (has_title b) eqn:Ht; [|done].
    by rewrite bool_decide_eq_false_2 by eauto.
Qed.

(** The nested loops visit the records of the sources one after the
    other. *)
Lemma foldl_sources {S : Type} (f : S → dict → S) (st : S) (sources : list (list dict)) :
  foldl (λ st source, foldl f st source) st sources = foldl f st (concat sources).
Proof.
  revert st. induction sources as [|src sources IH]; intros st; simpl; [done|].
  by rewrite foldl_app, IH.
Qed.

Lemma not_first_has_earlier before job :
  first_of_its_key before job = false → has_title job = true →
  ∃ b, b ∈ before ∧ has_title b = true ∧ uid_of b = uid_of job.
Proof.
  unfold first_of_its_key. intros Hfirst Ht. rewrite Ht in Hfirst.
  simpl in Hfirst. induction before as [|x before IH]; [done|].
  simpl in Hfirst. apply andb_false_iff in Hfirst as [Hx|Hrest].
  - apply negb_false_iff, andb_true_iff in Hx as [Hxt Hxu%bool_decide_eq_true].
    exists x. split_and!; [by left|done|done].
  - destruct (IH Hrest) as (b & Hb & Hbt & Hbu).
    exists b. split_and!; [by right|done|done].
Qed.

Lemma seen_inv_skip seen before job :
  seen_inv seen before → first_of_its_key before job = false →
  seen_inv seen (before ++ [job]).
Proof.
  intros Hinv Hfirst u. rewrite (Hinv u). split.
  - intros (b & Hb & Hbt & Hbu). exists b. split_and!; try done.
    apply elem_of_app. by left.
  - intros (b & Hb & Hbt & Hbu). apply elem_of_app in Hb as [Hb|Hb]; [eauto|].
    apply list_elem_of_singleton in Hb. subst b.
    destruct (not_first_has_earlier before job Hfirst Hbt) as (b' & ? & ? & ?).
    exists b'. split_and!; try done. congruence.
Qed.

Lemma seen_inv_add seen before job :
  seen_inv seen before → has_title job = true →
  seen_inv ({[uid_of job]} ∪ seen) (before ++ [job]).
Proof.
  intros Hinv Ht u. rewrite elem_of_union, elem_of_singleton, (Hinv u). split.
  - intros [->|(b & Hb & Hbt & Hbu)].
    + exists job. split_and!; try done. apply elem_of_app. right. by left.
    + exists b. split_and!; try done. apply elem_of_app. by left.
  - intros (b & Hb & Hbt & Hbu). apply elem_of_app in Hb as [Hb|Hb].
    + right. eauto.
    + apply list_elem_of_singleton in Hb. subst b. by left.
Qed.

Lemma merge_loop seen final before l :
  seen_inv seen before →
  (foldl merge_step (seen, final) l).2 = final ++ first_occurrences before l.
Proof.
  revert seen final before.
  induction l as [|job l IH]; intros seen final before Hinv; simpl.
  - by rewrite app_nil_r.
  - destruct (first_of_its_key before job) eqn:Hfirst.
    + pose proof Hfirst as [Ht Hnew]%first_of_its_key_iff.
      rewrite Ht, bool_decide_eq_true_2, andb_true_l.
      * rewrite (IH _ _ (before ++ [job])) by (by apply seen_inv_add).
        by rewrite <- app_assoc.
      * intros (b & Hb & Hbt & Hbu)%Hinv. by apply (Hnew b).
    + assert (bool_decide (uid_of job ∉ seen) && has_title job = false) as ->.
      { destruct (has_title job) eqn:Ht; [|by rewrite andb_false_r].
        rewrite andb_true_r. apply bool_decide_eq_false_2. intros Hnotin.
        apply Hnotin, Hinv. by apply not_first_has_earlier. }
      by rewrite (IH _ _ (before ++ [job])) by (by apply seen_inv_skip).
Qed.

Lemma merge_results_first_occurrences (sources : list (list dict)) :
  merge_results sources = first_occurrences [] (concat sources).
Proof.
  unfold merge_results. rewrite foldl_sources.
  rewrite (merge_loop ∅ [] []); [done|].
  intros u. split; [by intros ?%not_elem_of_empty|].
  by intros (b & ?%elem_of_nil & _).
Qed.

Lemma first_occurrences_elem before l r :
  r ∈ first_occurrences before l →
  has_title r = true
  ∧ r ∈ l
  ∧ ∀ b, b ∈ before → has_title b = true → uid_of b ≠ uid_of r.
Proof.
  revert before. induction l as [|job l IH]; intros before; simpl.
  - by intros ?%elem_of_nil.
  - rewrite elem_of_app. intros [Hhead|Htail].
    + destruct (first_of_its_key before job) eqn:Hfirst;
        [|by apply elem_of_nil in Hhead].
      apply list_elem_of_singleton in Hhead as ->.
      apply first_of_its_key_iff in Hfirst as [Ht Hnew].
      split_and!; [done|by left|done].
    + apply IH in Htail as (Ht & Hin & Hnew). split_and!; [done|by right|].
      intros b Hb. apply Hnew, elem_of_app. by left.
Qed.

Lemma first_occurrences_sublist before l : first_occurrences before l `sublist_of` l.
Proof.
  revert before. induction l as [|job l IH]; intros before; simpl; [done|].
  case_match; simpl; [by apply sublist_skip|by apply sublist_cons].
Qed.

Lemma first_occurrences_keys_nodup before l :
  NoDup (uid_of <$> first_occurrences before l).
Proof.
  revert before. induction l as [|job l IH]; intros before; simpl.
  - constructor.
  - destruct (first_of_its_key before job) eqn:Hfirst; simpl; [|apply IH].
    apply first_of_its_key_iff in Hfirst as [Ht _].
    constructor; [|apply IH].
    intros (r & Heq & Hr)%list_elem_of_fmap.
    apply first_occurrences_elem in Hr as (_ & _ & Hnew).
    apply (Hnew job); [|done|done]. apply elem_of_app. right. by left.
Qed.

(** Every titled record is represented in the result by a record of
    its key, unless a titled record of that key came before. *)
Lemma first_occurrences_covers before l r :
  r ∈ l → has_title r = true →
  (∃ b, b ∈ before ∧ has_title b = true ∧ uid_of b = uid_of r)
  ∨ (∃ r', r' ∈ first_occurrences before l ∧ uid_of r' = uid_of r).
Proof.
  revert before. induction l as [|job l IH]; intros before Hin Ht.
  - by apply elem_of_nil in Hin.
  - simpl. apply elem_of_cons in Hin as [->|Hin].
    + destruct (first_of_its_key before job) eqn:Hfirst.
      * right. exists job. split; [|done]. apply elem_of_app. left. by left.
      * left. by apply not_first_has_earlier.
    + destruct (IH (before ++ [job]) Hin Ht)
        as [(b & Hb & Hbt & Hbu)|(r' & Hr' & Hu)].
      * apply elem_of_app in Hb as [Hb|Hb]; [left; eauto|].
        apply list_elem_of_singleton in Hb. subst b.
        destruct (first_of_its_key before job) eqn:Hfirst.
        -- right. exists job. split; [|done]. apply elem_of_app. left. by left.
        -- left. destruct (not_first_has_earlier before job Hfirst Hbt)
             as (b' & ? & ? & ?).
           exists b'. split_and!; try done. congruence.
      * right. exists r'. split; [|done]. apply elem_of_app. by right.
Qed.

Lemma merge_results_covers (sources : list (list dict)) r :
  r ∈ concat sources → has_title r = true →
  ∃ r', r' ∈ merge_results sources ∧ uid_of r' = uid_of r.
Proof.
  intros Hin Ht. rewrite merge_results_first_occurrences.
  destruct (first_occurrences_covers [] _ r Hin Ht) as [(b & Hb & _)|H]; [|done].
  by apply elem_of_nil in Hb.
Qed.

(** C3 (as amended) *)
(** [merge_results] keeps, among the records with a title that share
    a key, exactly the first one met in the concatenation of the
    sources, in the order in which the kept records were met: its
    result is a sub-sequence of the concatenation, holds no key twice,
    and represents the key of every titled record.  Merging the two
    "Driver" records gives one record. *)
Theorem merge_keeps_first_titled_occurrence (sources : list (list dict)) :
  merge_results sources = first_occurrences [] (concat sources)
  ∧ merge_results sources `sublist_of` concat sources
  ∧ NoDup (uid_of <$> merge_results sources)
  ∧ Forall (λ r, has_title r = true →
                 ∃ r', r' ∈ merge_results sources ∧ uid_of r' = uid_of r)
      (concat sources)
  ∧ merge_results [[Sample.driver_a]; [Sample.driver_b]] = [Sample.driver_a].
Proof.
  split_and!.
  - apply merge_results_first_occurrences.
  - rewrite merge_results_first_occurrences. apply first_occurrences_sublist.
  - rewrite merge_results_first_occurrences. apply first_occurrences_keys_nodup.
  - apply Forall_forall. intros r Hr Ht. by apply merge_results_covers.
  - vm_compute. reflexivity.
Qed.

Lemma merge_keeps_first_titled_occurrence_witness :
  ∃ r', r' ∈ merge_results [[Sample.driver_a]; [Sample.driver_b]]
        ∧ uid_of r' = uid_of Sample.driver_b.
Proof.
  destruct (merge_keeps_first_titled_occurrence
              [[Sample.driver_a]; [Sample.driver_b]]) as (_ & _ & _ & Hcov & _).
  apply Forall_forall with (x := Sample.driver_b) in Hcov.
  - apply Hcov. reflexivity.
  - simpl. right. left.
Defined.

(** A record can be kept although a record of its key precedes it:
    the earlier record had no title. *)
Lemma merge_keeps_later_occurrence :
  concat [[Sample.untitled]; [Sample.blank_titled]]
    = [Sample.untitled; Sample.blank_titled]
  ∧ uid_of Sample.untitled = uid_of Sample.blank_titled
  ∧ merge_results [[Sample.untitled]; [Sample.blank_titled]] = [Sample.blank_titled].
Proof. split_and!; vm_compute; reflexivity. Qed.

(** C4 (as amended) *)
(** A record whose title, as stored, is false in a condition (absent,
    [None], the empty string, zero, [False], an empty list or
    dictionary) is not in the result of [merge_results], whichever
    source supplied it and whatever its key. *)
Theorem merge_drops_untitled (sources : list (list dict)) r :
  has_title r = false → r ∉ merge_results sources.
Proof.
  intros Ht Hin. rewrite merge_results_first_occurrences in Hin.
  apply first_occurrences_elem in Hin as (Ht' & _). congruence.
Qed.

Lemma merge_drops_untitled_witness :
  Sample.untitled ∉ merge_results [[Sample.driver_a]; [Sample.untitled]].
Proof.
  apply (merge_drops_untitled [[Sample.driver_a]; [Sample.untitled]] Sample.untitled).
  reflexivity.
Defined.

(** A title of blanks only is empty after trimming, and the record is
    kept. *)
Lemma merge_keeps_blank_title :
  PyStr.strip (Py.str (Py.get_or Sample.blank_titled "title" (PStr ""))) = ""
  ∧ merge_results [[Sample.blank_titled]] = [Sample.blank_titled].
Proof. split; vm_compute; reflexivity. Qed.

End merging.

(** ** Adapters *)

Section adapters.

Implicit Types (key location kw : string) (mk : string → pyval → option dict)
  (prov : provider) (results : list dict) (kws keywords : list string).

Lemma append_records_acc (f : pyval → option dict) (items : list pyval) results :
  append_records f items results
  = ((append_records f items []).1, results ++ (append_records f items []).2).
Proof.
  revert results. induction items as [|job items IH]; intros results; simpl.
  - by rewrite app_nil_r.
  - destruct (f job) as [r|]; [|by rewrite app_nil_r].
    rewrite (IH (results ++ [r])), (IH [r]). simpl. by rewrite <- app_assoc.
Qed.

Lemma query_keyword_acc key mk prov location i kw results :
  query_keyword key mk prov location i kw results
  = ((query_alone key mk prov location i kw).1,
     results ++ (query_alone key mk prov location i kw).2).
Proof.
  unfold query_alone, query_keyword.
  destruct (prov i kw location) as [|st [data|]]; simpl;
    rewrite ?app_nil_r; try done.
  - destruct (st =? 200); [|by rewrite app_nil_r].
    destruct (Py.obj_get data key (PList []) ≫= Py.iter) as [items|];
      [|by rewrite app_nil_r].
    apply append_records_acc.
  - by destruct (st =? 200); rewrite app_nil_r.
Qed.

(** The keyword loop gathers the records up to the first query that
    raises. *)
Lemma keyword_loop_collects key mk prov location i kws results :
  (keyword_loop (query_keyword key mk prov location) i kws results).2
  = results ++ collected_until_raise (query_alone key mk prov location) i kws.
Proof.
  revert i results. induction kws as [|kw kws IH]; intros i results; simpl.
  - by rewrite app_nil_r.
  - rewrite query_keyword_acc.
    destruct (query_alone key mk prov location i kw) as [[] recs]; simpl.
    + by rewrite IH, <- app_assoc.
    + done.
Qed.

Lemma fetch_with_collects key mk prov keywords location :
  fetch_with key mk prov keywords location
  = collected_until_raise (query_alone key mk prov location) 0 (take 3 keywords).
Proof.
  unfold fetch_with.
  pose proof (keyword_loop_collects key mk prov location 0 (take 3 keywords) []) as H.
  by destruct (keyword_loop _ _ _ _).
Qed.

Lemma query_alone_fails key mk prov location i kw :
  call_fails (prov i kw location) = true →
  query_alone key mk prov location i kw = (Raised, []).
Proof.
  unfold query_alone, query_keyword, call_fails.
  destruct (prov i kw location) as [|st [data|]]; [done|done|].
  by intros ->.
Qed.

Lemma fetch_with_fails_always key mk prov keywords location :
  fails_always prov → fetch_with key mk prov keywords location = [].
Proof.
  intros Hfail. rewrite fetch_with_collects.
  destruct (take 3 keywords) as [|kw kws]; simpl; [done|].
  by rewrite query_alone_fails.
Qed.

Lemma collected_all_completed (q : nat → string → outcome * list dict) i kws :
  (∀ j kw, kws !! j = Some kw → (q (i + j)%nat kw).1 = Completed) →
  collected_until_raise q i kws = all_records q i kws.
Proof.
  revert i. induction kws as [|kw kws IH]; intros i Hok; simpl; [done|].
  pose proof (Hok 0%nat kw eq_refl) as H0. rewrite Nat.add_0_r in H0.
  destruct (q i kw) as [o recs]. simpl in *. subst o.
  rewrite IH; [done|]. intros j x Hx.
  specialize (Hok (S j) x Hx). by rewrite Nat.add_succ_r in Hok.
Qed.

Lemma collected_first_raise (q : nat → string → outcome * list dict) i pre kw post :
  (∀ j x, pre !! j = Some x → (q (i + j)%nat x).1 = Completed) →
  (q (i + length pre)%nat kw).1 = Raised →
  collected_until_raise q i (pre ++ kw :: post)
  = all_records q i pre ++ (q (i + length pre)%nat kw).2.
Proof.
  revert i. induction pre as [|x pre IH]; intros i Hok Hraise; simpl in *.
  - rewrite Nat.add_0_r in *. by destruct (q i kw) as [[] recs]; simplify_eq/=.
  - pose proof (Hok 0%nat x eq_refl) as H0. rewrite Nat.add_0_r in H0.
    destruct (q i x) as [o recs] eqn:E. simpl in *. subst o.
    rewrite (IH (S i)), <- app_assoc.
    + by rewrite Nat.add_succ_r.
    + intros j y Hy. specialize (Hok (S j) y Hy).
      by rewrite Nat.add_succ_r in Hok.
    + by rewrite Nat.add_succ_r in Hraise.
Qed.

(** C2 *)
(** An adapter always returns a list: the records its queries had
    appended when the first error was raised, all of them when no
    query raises, none when every call fails.  In a search, an
    adapter whose provider fails on every call contributes the empty
    list, the merged jobs are those of the other two adapters, and
    every titled record an adapter returned is represented in the
    merged jobs by a record of its key. *)
Theorem adapter_failure_is_contained (w : world) (profile : dict)
    keywords location :
  fetch_adzuna (adzuna w) keywords location
    = collected_until_raise (query_alone "results" adzuna_record (adzuna w) location)
        0 (take 3 keywords)
  ∧ fetch_jooble (jooble w) keywords location
    = collected_until_raise (query_alone "jobs" jooble_record (jooble w) location)
        0 (take 3 keywords)
  ∧ fetch_serpapi (serpapi w) keywords location
    = collected_until_raise
        (query_alone "jobs_results" serpapi_record (serpapi w) location)
        0 (take 3 keywords)
  ∧ (fails_always (adzuna w) →
     fetch_adzuna (adzuna w) keywords location = []
     ∧ collect_jobs w profile
       = merge_results [jooble_jobs w profile; serpapi_jobs w profile])
  ∧ (fails_always (jooble w) →
     fetch_jooble (jooble w) keywords location = []
     ∧ collect_jobs w profile
       = merge_results [adzuna_jobs w profile; serpapi_jobs w profile])
  ∧ (fails_always (serpapi w) →
     fetch_serpapi (serpapi w) keywords location = []
     ∧ collect_jobs w profile
       = merge_results [adzuna_jobs w profile; jooble_jobs w profile])
  ∧ Forall (λ r, has_title r = true →
                 ∃ r', r' ∈ collect_jobs w profile ∧ uid_of r' = uid_of r)
      (adzuna_jobs w profile ++ jooble_jobs w profile ++ serpapi_jobs w profile).
Proof.
  split_and!; try apply fetch_with_collects.
  - intros Hfail. split; [by apply fetch_with_fails_always|].
    unfold collect_jobs, fetch_adzuna.
    by rewrite fetch_with_fails_always.
  - intros Hfail. split; [by apply fetch_with_fails_always|].
    unfold collect_jobs, fetch_jooble.
    by rewrite (fetch_with_fails_always "jobs").
  - intros Hfail. split; [by apply fetch_with_fails_always|].
    unfold collect_jobs, fetch_serpapi.
    by rewrite (fetch_with_fails_always "jobs_results").
  - apply Forall_forall. intros r Hr Ht.
    apply merge_results_covers; [|done].
    simpl. by rewrite app_nil_r.
Qed.

Lemma adapter_failure_is_contained_witness :
  fetch_jooble (jooble Sample.one_job_world) ["driver"; "cook"] "India" = []
  ∧ collect_jobs Sample.one_job_world Sample.profile
    = merge_results [adzuna_jobs Sample.one_job_world Sample.profile;
                     serpapi_jobs Sample.one_job_world Sample.profile].
Proof.
  destruct (adapter_failure_is_contained Sample.one_job_world Sample.profile
              ["driver"; "cook"] "India") as (_ & _ & _ & _ & Hjooble & _).
  apply Hjooble. intros i kw location. reflexivity.
Defined.

(** C5 (as amended) *)
(** For every adapter ([fetch_adzuna], [fetch_jooble] and
    [fetch_serpapi] are [fetch_with] at their payload field and record
    maker): a response whose status is not 200 leaves the results as
    they are and the loop goes on; when no query of the first three
    keywords raises, the adapter returns the records of all of them in
    keyword order; when a query raises, the adapter returns the
    records of the keywords before it and those the failing query had
    appended, and the keywords after it are not queried. *)
Theorem keyword_failure_handling key mk prov keywords location :
  (∀ i kw results st body,
     prov i kw location = Response st body → st ≠ 200 →
     query_keyword key mk prov location i kw results = (Completed, results))
  ∧ ((∀ j kw, take 3 keywords !! j = Some kw →
             (query_alone key mk prov location j kw).1 = Completed) →
     fetch_with key mk prov keywords location
     = all_records (query_alone key mk prov location) 0 (take 3 keywords))
  ∧ (∀ pre kw post,
       take 3 keywords = pre ++ kw :: post →
       (∀ j x, pre !! j = Some x →
               (query_alone key mk prov location j x).1 = Completed) →
       (query_alone key mk prov location (length pre) kw).1 = Raised →
       fetch_with key mk prov keywords location
       = all_records (query_alone key mk prov location) 0 pre
         ++ (query_alone key mk prov location (length pre) kw).2).
Proof.
  split_and!.
  - intros i kw results st body Hresp Hst. unfold query_keyword.
    rewrite Hresp. by apply Z.eqb_neq in Hst as ->.
  - intros Hok. rewrite fetch_with_collects.
    by apply collected_all_completed.
  - intros pre kw post Hkws Hok Hraise.
    rewrite fetch_with_collects, Hkws.
    by apply (collected_first_raise _ 0).
Qed.

Lemma keyword_failure_handling_witness :
  fetch_with "results" adzuna_record Sample.cook_not_found
    ["driver"; "cook"; "chef"] "India"
  = all_records (query_alone "results" adzuna_record Sample.cook_not_found "India")
      0 ["driver"; "cook"; "chef"]
  ∧ query_keyword "results" adzuna_record Sample.cook_not_found "India"
      1 "cook" [Sample.adzuna_job] = (Completed, [Sample.adzuna_job])
  ∧ fetch_with "results" adzuna_record Sample.driver_unreachable
      ["cook"; "driver"; "chef"] "India"
    = all_records (query_alone "results" adzuna_record Sample.driver_unreachable "India")
        0 ["cook"]
      ++ (query_alone "results" adzuna_record Sample.driver_unreachable "India"
            1 "driver").2.
Proof.
  split_and!.
  - apply (keyword_failure_handling "results" adzuna_record Sample.cook_not_found
             ["driver"; "cook"; "chef"] "India").
    intros [|[|[|j]]] kw Hkw; simplify_eq/=; reflexivity.
  - apply (keyword_failure_handling "results" adzuna_record Sample.cook_not_found
             ["driver"; "cook"; "chef"] "India") with (st := 404) (body := None);
      [reflexivity|lia].
  - apply (keyword_failure_handling "results" adzuna_record Sample.driver_unreachable
             ["cook"; "driver"; "chef"] "India") with (post := ["chef"]);
      [reflexivity| |reflexivity].
    intros [|j] x Hx; simplify_eq/=; reflexivity.
Defined.

(** After a request that raises, the next keyword is not queried
    although its query would have given a record. *)
Lemma failed_keyword_ends_adapter :
  (query_alone "results" adzuna_record Sample.driver_unreachable "India" 1 "cook").2
    = [Sample.adzuna_job]
  ∧ fetch_adzuna Sample.driver_unreachable ["driver"; "cook"] "India" = [].
Proof. split; vm_compute; reflexivity. Qed.

End adapters.

(** ** Keywords *)

Section keywords.

Implicit Types (keywords : gset string) (profile : dict).

Lemma add_long_text_mono keywords x : keywords ⊆ add_long_text keywords x.
Proof. unfold add_long_text. repeat case_match; set_solver. Qed.

Lemma add_field_mono (d : dict) k keywords : keywords ⊆ add_field d k keywords.
Proof. unfold add_field. repeat case_match; set_solver. Qed.

Lemma add_experience_mono keywords x : keywords ⊆ add_experience keywords x.
Proof.
  unfold add_experience. destruct x; try done.
  etrans; [|apply add_field_mono]. apply add_field_mono.
Qed.

Lemma add_education_mono keywords x : keywords ⊆ add_education keywords x.
Proof. unfold add_education. destruct x; try done. apply add_field_mono. Qed.

Lemma for_list_field_mono profile k (body : gset string → pyval → gset string)
    keywords :
  (∀ s x, s ⊆ body s x) → keywords ⊆ for_list_field profile k body keywords.
Proof.
  intros Hbody. unfold for_list_field.
  destruct (Py.get_or profile k (PList [])) as [| | | |l|]; try done.
  revert keywords. induction l as [|x l IH]; intros keywords; simpl; [done|].
  etrans; [apply (Hbody keywords x)|apply IH].
Qed.

(** A role that has no blanks around it and passes the filter is the
    first keyword, whatever the enumeration order of the set. *)
Lemma unpadded_role_is_first (order : gset string → list string) profile r :
  (∀ s x, x ∈ s → x ∈ order s) →
  Py.get_or profile "role" (PStr "") = PStr r →
  PyStr.strip r = r →
  keep_keyword r = true →
  generate_keywords order profile !! 0%nat = Some r.
Proof.
  intros Horder Hrole Hstrip Hkeep. unfold generate_keywords.
  rewrite Hrole.
  assert (Py.truthy (PStr r) = true) as Htruthy.
  { unfold keep_keyword in Hkeep. apply andb_true_iff in Hkeep as [Hk _].
    exact Hk. }
  assert (PyStr.among (PyStr.lower r) null_words = false) as Hnull.
  { unfold keep_keyword in Hkeep.
    apply andb_true_iff in Hkeep as [_ Hk%negb_true_iff].
    apply among_false_iff. apply among_false_iff in Hk.
    unfold null_words. rewrite !elem_of_cons, elem_of_nil in *. tauto. }
  set (ks := filter _ _).
  assert (r ∈ ks) as Hin.
  { apply elem_of_filter. split; [done|].
    do 4 (eapply for_list_field_mono;
          [first [apply add_long_text_mono | apply add_experience_mono
                 | apply add_education_mono]|]).
    unfold add_role. rewrite Htruthy, Hnull, Hstrip. set_solver. }
  unfold role_first. rewrite Htruthy.
  rewrite bool_decide_eq_true_2 by by apply Horder.
  done.
Qed.

(** C6 *)
(** For a role with blanks around it, the trimmed role is a keyword
    but is not moved to the front: the list is the enumeration of the
    set as it comes, here with the skill first, and with the reverse
    enumeration the other way round. *)
Theorem padded_role_is_not_moved_first :
  generate_keywords elements Sample.padded_role_profile = ["Cooking"; "Driver"]
  ∧ generate_keywords (λ s, reverse (elements s)) Sample.padded_role_profile
    = ["Driver"; "Cooking"]
  ∧ role_first (PStr " Driver ") ["Cooking"; "Driver"] = ["Cooking"; "Driver"].
Proof. split_and!; vm_compute; reflexivity. Qed.

End keywords.

(** * Further properties *)

(** ** Trimming *)

Section trimming.

Lemma lstrip_head (s : string) :
  PyStr.lstrip s = ""
  ∨ ∃ c s', PyStr.lstrip s = String c s' ∧ PyStr.is_space c = false.
Proof.
  induction s as [|c s IH]; simpl; [by left|].
  destruct (PyStr.is_space c) eqn:E; [done|]. right. by exists c, s.
Qed.

Lemma rstrip_head (c : ascii) (s : string) :
  PyStr.is_space c = false → ∃ r, PyStr.rstrip (String c s) = String c r.
Proof.
  intros Hc. simpl. destruct (PyStr.rstrip s) as [|x r].
  - rewrite Hc. by exists "".
  - by exists (String x r).
Qed.

Lemma rstrip_idemp (s : string) : PyStr.rstrip (PyStr.rstrip s) = PyStr.rstrip s.
Proof.
  induction s as [|c s IH]; [done|]. simpl.
  destruct (PyStr.rstrip s) as [|x r] eqn:E.
  - destruct (PyStr.is_space c) eqn:Hc; [done|]. simpl. by rewrite Hc.
  - change (PyStr.rstrip (String c (String x r)))
      with (match PyStr.rstrip (String x r) with
            | "" => if PyStr.is_space c then "" else String c ""
            | r' => String c r'
            end).
    by rewrite IH.
Qed.

(** [strip] leaves a trimmed text as it is. *)
Lemma strip_idemp (s : string) : PyStr.strip (PyStr.strip s) = PyStr.strip s.
Proof.
  unfold PyStr.strip.
  destruct (lstrip_head s) as [->|(c & s' & -> & Hc)]; [done|].
  destruct (rstrip_head c s' Hc) as [r Hr].
  assert (PyStr.lstrip (PyStr.rstrip (String c s')) = PyStr.rstrip (String c s')) as ->.
  { rewrite Hr. simpl. by rewrite Hc. }
  apply rstrip_idemp.
Qed.

End trimming.

(** ** Keywords *)

Section keyword_properties.

Implicit Types (keywords : gset string) (profile : dict)
  (order : gset string → list string).

Lemma generate_keywords_unfold order profile :
  generate_keywords order profile
  = take 8 (role_first (Py.get_or profile "role" (PStr ""))
              (order (filter (λ k, keep_keyword k = true)
                        (collected_keywords profile)))).
Proof. reflexivity. Qed.

Lemma remove_first_elem (x y : string) (l : list string) :
  y ∈ remove_first x l → y ∈ l.
Proof.
  induction l as [|z l IH]; simpl; [done|].
  destruct (String.eqb z x).
  - intros. by right.
  - intros [->|Hy]%elem_of_cons; [by left|right; auto].
Qed.

Lemma remove_first_nodup (x : string) (l : list string) :
  NoDup l → NoDup (remove_first x l) ∧ x ∉ remove_first x l.
Proof.
  induction 1 as [|z l Hz Hl IH]; simpl.
  - split; [constructor|by intros ?%elem_of_nil].
  - destruct (String.eqb z x) eqn:E.
    + apply String.eqb_eq in E as ->. done.
    + apply String.eqb_neq in E. destruct IH as [IH1 IH2]. split.
      * constructor; [|done]. intros Hin%remove_first_elem. done.
      * intros [->|Hin]%elem_of_cons; done.
Qed.

Lemma role_first_elem (role : pyval) (l : list string) (k : string) :
  k ∈ role_first role l → k ∈ l.
Proof.
  unfold role_first. destruct role as [| | |r| |]; try done.
  destruct (Py.truthy (PStr r) && bool_decide (r ∈ l)) eqn:E; [|done].
  apply andb_true_iff in E as [_ Hr%bool_decide_eq_true].
  intros [->|Hk%remove_first_elem]%elem_of_cons; done.
Qed.

Lemma role_first_nodup (role : pyval) (l : list string) :
  NoDup l → NoDup (role_first role l).
Proof.
  intros Hl. unfold role_first. destruct role as [| | |r| |]; try done.
  case_match; [|done].
  destruct (remove_first_nodup r l Hl). by constructor.
Qed.

(** An invariant of the set survives a loop over a list field. *)
Lemma for_list_field_inv (I : gset string → Prop) profile k
    (body : gset string → pyval → gset string) keywords :
  (∀ s x, I s → I (body s x)) → I keywords →
  I (for_list_field profile k body keywords).
Proof.
  intros Hbody. unfold for_list_field.
  destruct (Py.get_or profile k (PList [])) as [| | | |l|]; try done.
  revert keywords. induction l as [|x l IH]; intros keywords HI; simpl; auto.
Qed.

(** X23 *)
(** [generate_keywords] returns at most eight keywords, and no keyword
    twice when the enumeration of the set has no repeats: moving the
    role to the front takes it out of its old place. *)
Theorem generate_keywords_bounded_nodup order profile :
  (∀ s, NoDup (order s)) →
  (length (generate_keywords order profile) ≤ 8)%nat
  ∧ NoDup (generate_keywords order profile).
Proof.
  intros Horder. rewrite generate_keywords_unfold. split.
  - rewrite length_take. lia.
  - eapply sublist_NoDup; [|apply sublist_take].
    apply role_first_nodup, Horder.
Qed.

Lemma generate_keywords_bounded_nodup_witness :
  (length (generate_keywords elements Sample.profile) ≤ 8)%nat
  ∧ NoDup (generate_keywords elements Sample.profile).
Proof.
  apply (generate_keywords_bounded_nodup elements Sample.profile).
  intros s. apply NoDup_elements.
Defined.

Lemma generate_keywords_elem order profile k :
  (∀ s x, x ∈ order s → x ∈ s) →
  k ∈ generate_keywords order profile →
  keep_keyword k = true ∧ k ∈ collected_keywords profile.
Proof.
  intros Horder Hk. rewrite generate_keywords_unfold in Hk.
  apply elem_of_take in Hk as (i & Hk & _).
  apply list_elem_of_lookup_2, role_first_elem, Horder in Hk.
  by apply elem_of_filter in Hk.
Qed.

(** X2 *)
(** No keyword is empty, and none is "null", "none" or "n/a" in any
    letter case. *)
Theorem generate_keywords_not_null_like order profile k :
  (∀ s x, x ∈ order s → x ∈ s) →
  k ∈ generate_keywords order profile →
  k ≠ "" ∧ PyStr.lower k ∉ ["null"; "none"; "n/a"; ""].
Proof.
  intros Horder Hk.
  destruct (generate_keywords_elem order profile k Horder Hk) as [Hkeep _].
  unfold keep_keyword in Hkeep.
  apply andb_true_iff in Hkeep as [Hne%negb_true_iff Hlow%negb_true_iff].
  split; [by apply String.eqb_neq|by apply among_false_iff].
Qed.

Lemma generate_keywords_not_null_like_witness :
  "Python" ≠ "" ∧ PyStr.lower "Python" ∉ ["null"; "none"; "n/a"; ""].
Proof.
  apply (generate_keywords_not_null_like elements Sample.profile "Python").
  - intros s x. apply elem_of_elements.
  - vm_compute. apply list_elem_of_In. simpl. tauto.
Defined.

Lemma collected_keywords_trimmed profile k :
  k ∈ collected_keywords profile → PyStr.strip k = k.
Proof.
  revert k. unfold collected_keywords.
  set (I := λ s : gset string, ∀ k, k ∈ s → PyStr.strip k = k).
  assert (∀ s t, I s → I ({[PyStr.strip t]} ∪ s)) as Hadd.
  { intros s t Hs k [->%elem_of_singleton|Hk]%elem_of_union;
      [apply strip_idemp|by apply Hs]. }
  assert (∀ (d : dict) f s, I s → I (add_field d f s)) as Hfield.
  { intros d f s Hs. unfold add_field. repeat case_match; auto. }
  repeat apply (for_list_field_inv I).
  - intros s x Hs. unfold add_long_text. repeat case_match; auto.
  - intros s x Hs. unfold add_education. destruct x; auto.
  - intros s x Hs. unfold add_experience. destruct x; auto.
  - intros s x Hs. unfold add_long_text. repeat case_match; auto.
  - unfold add_role. repeat case_match; try (by intros k ?%not_elem_of_empty).
    apply Hadd. by intros k ?%not_elem_of_empty.
Qed.

(** X3 *)
(** Every keyword is trimmed: it has no blank at either end. *)
Theorem generate_keywords_trimmed order profile k :
  (∀ s x, x ∈ order s → x ∈ s) →
  k ∈ generate_keywords order profile →
  PyStr.strip k = k.
Proof.
  intros Horder Hk. apply (collected_keywords_trimmed profile).
  by apply (generate_keywords_elem order).
Qed.

Lemma generate_keywords_trimmed_witness :
  PyStr.strip "Driver" = "Driver".
Proof.
  apply (generate_keywords_trimmed elements Sample.padded_role_profile "Driver").
  - intros s x. apply elem_of_elements.
  - vm_compute. apply list_elem_of_In. simpl. tauto.
Defined.

Lemma add_long_text_skipped keywords (l : list pyval) :
  Forall (λ v, ∀ t, v = PStr t → (String.length (PyStr.strip t) ≤ 2)%nat) l →
  foldl add_long_text keywords l = keywords.
Proof.
  induction 1 as [|v l Hv Hl IH]; simpl; [done|].
  rewrite <- IH at 2. f_equal. unfold add_long_text.
  destruct v as [| | |t| |]; try done.
  specialize (Hv t eq_refl).
  assert ((2 <? String.length (PyStr.strip t))%nat = false) as ->
    by (apply Nat.ltb_ge; lia).
  by rewrite andb_false_r.
Qed.

(** X4 *)
(** Skills that are not strings (objects, numbers, ...) and skills whose
    trimmed text has at most two characters give no keywords: the
    keywords are those of the profile with an empty skill list. *)
Theorem generate_keywords_skips_skills order profile (skills : list pyval) :
  Forall (λ v, ∀ t, v = PStr t → (String.length (PyStr.strip t) ≤ 2)%nat) skills →
  generate_keywords order (with_skills profile skills)
  = generate_keywords order (with_skills profile []).
Proof.
  intros Hskills. rewrite !generate_keywords_unfold.
  unfold collected_keywords, with_skills.
  rewrite !for_list_field_set_eq, !for_list_field_set_ne by done.
  rewrite !get_or_set_ne by done.
  by rewrite add_long_text_skipped.
Qed.

Lemma generate_keywords_skips_skills_witness :
  generate_keywords elements
    (with_skills Sample.profile [PDict [("name", PStr "Python")]; PStr " C "; PInt 7])
  = generate_keywords elements (with_skills Sample.profile []).
Proof.
  apply (generate_keywords_skips_skills elements Sample.profile).
  rewrite !Forall_cons, Forall_nil.
  split_and!; try done; intros t Ht; simplify_eq; simpl; lia.
Defined.

(** X21 *)
(** A role that is a string without blanks at its ends and that passes
    the filter (not empty, not "null", "none" or "n/a" in any letter
    case) is the first keyword, whatever the enumeration order of the
    set. *)
Theorem role_without_blanks_is_first order profile (r : string) :
  (∀ s x, x ∈ s → x ∈ order s) →
  Py.get_or profile "role" (PStr "") = PStr r →
  PyStr.strip r = r →
  keep_keyword r = true →
  generate_keywords order profile !! 0%nat = Some r.
Proof. apply unpadded_role_is_first. Qed.

Lemma role_without_blanks_is_first_witness :
  generate_keywords (λ s, reverse (elements s)) Sample.profile !! 0%nat
  = Some "Software Engineer".
Proof.
  apply (role_without_blanks_is_first (λ s, reverse (elements s)) Sample.profile).
  - intros s x Hx. by apply elem_of_reverse, elem_of_elements.
  - reflexivity.
  - reflexivity.
  - reflexivity.
Defined.

End keyword_properties.

(** ** Adapters *)

Section adapter_properties.

Implicit Types (key location kw : string) (mk : string → pyval → option dict)
  (prov : provider) (results : list dict) (kws keywords : list string) (r : dict).

Lemma append_records_elem (f : pyval → option dict) (items : list pyval) results r :
  r ∈ (append_records f items results).2 →
  r ∈ results ∨ ∃ job, job ∈ items ∧ f job = Some r.
Proof.
  revert results. induction items as [|job items IH]; intros results; simpl.
  - by left.
  - destruct (f job) as [x|] eqn:E; [|by left].
    intros [[Hr| ->%list_elem_of_singleton]%elem_of_app|(job' & Hin & Hjob)]%IH.
    + by left.
    + right. exists job. split; [by left|done].
    + right. exists job'. split; [by right|done].
Qed.

Lemma query_alone_elem key mk prov location i kw r :
  r ∈ (query_alone key mk prov location i kw).2 →
  ∃ data items job,
    prov i kw location = Response 200 (Some data)
    ∧ Py.obj_get data key (PList []) ≫= Py.iter = Some items
    ∧ job ∈ items
    ∧ mk location job = Some r.
Proof.
  unfold query_alone, query_keyword.
  destruct (prov i kw location) as [|st [data|]]; simpl;
    try (by intros ?%elem_of_nil).
  - destruct (st =? 200) eqn:Hst; [|by intros ?%elem_of_nil].
    apply Z.eqb_eq in Hst as ->.
    destruct (Py.obj_get data key (PList []) ≫= Py.iter) as [items|] eqn:E;
      [|by intros ?%elem_of_nil].
    intros [?%elem_of_nil|(job & Hin & Hjob)]%append_records_elem; [done|].
    by exists data, items, job.
  - by destruct (st =? 200); intros ?%elem_of_nil.
Qed.

Lemma collected_elem (q : nat → string → outcome * list dict) i kws r :
  r ∈ collected_until_raise q i kws →
  ∃ j kw, kws !! j = Some kw ∧ r ∈ (q (i + j)%nat kw).2.
Proof.
  revert i. induction kws as [|kw kws IH]; intros i; simpl.
  - by intros ?%elem_of_nil.
  - destruct (q i kw) as [o recs] eqn:E.
    assert (r ∈ recs → ∃ j kw0, (kw :: kws) !! j = Some kw0
                                 ∧ r ∈ (q (i + j)%nat kw0).2) as Hhead.
    { intros Hr. exists 0%nat, kw. rewrite Nat.add_0_r, E. done. }
    destruct o; [|done].
    intros [Hr|Hr]%elem_of_app; [auto|].
    apply IH in Hr as (j & kw0 & Hj & Hr). exists (S j), kw0.
    by rewrite Nat.add_succ_r.
Qed.

Lemma fetch_with_elem key mk prov keywords location r :
  r ∈ fetch_with key mk prov keywords location →
  ∃ (j : nat) kw data items job,
    (j < 3)%nat
    ∧ keywords !! j = Some kw
    ∧ prov j kw location = Response 200 (Some data)
    ∧ Py.obj_get data key (PList []) ≫= Py.iter = Some items
    ∧ job ∈ items
    ∧ mk location job = Some r.
Proof.
  rewrite fetch_with_collects.
  intros (j & kw & Hj & Hr)%collected_elem.
  apply query_alone_elem in Hr as (data & items & job & Hresp & Hitems & Hin & Hmk).
  apply lookup_take_Some in Hj as [Hj Hlt].
  by exists j, kw, data, items, job.
Qed.

(** X5 *)
(** Every record an adapter returns was made from a listing found in a
    response of status 200 to the request for one of the first three
    keywords. *)
Theorem fetch_records_come_from_ok_responses key mk prov keywords location r :
  r ∈ fetch_with key mk prov keywords location →
  ∃ (j : nat) kw data items job,
    (j < 3)%nat
    ∧ keywords !! j = Some kw
    ∧ prov j kw location = Response 200 (Some data)
    ∧ Py.obj_get data key (PList []) ≫= Py.iter = Some items
    ∧ job ∈ items
    ∧ mk location job = Some r.
Proof. apply fetch_with_elem. Qed.

Lemma fetch_records_come_from_ok_responses_witness :
  ∃ (j : nat) kw data items job,
    (j < 3)%nat
    ∧ ["Software Engineer"; "Python"] !! j = Some kw
    ∧ Sample.one_listing j kw "Pune" = Response 200 (Some data)
    ∧ Py.obj_get data "results" (PList []) ≫= Py.iter = Some items
    ∧ job ∈ items
    ∧ adzuna_record "Pune" job = Some Sample.adzuna_job.
Proof.
  apply (fetch_records_come_from_ok_responses "results" adzuna_record
           Sample.one_listing ["Software Engineer"; "Python"] "Pune").
  vm_compute. left.
Defined.

Lemma collected_ext (q q' : nat → string → outcome * list dict) i kws :
  (∀ j kw, kws !! j = Some kw → q (i + j)%nat kw = q' (i + j)%nat kw) →
  collected_until_raise q i kws = collected_until_raise q' i kws.
Proof.
  revert i. induction kws as [|kw kws IH]; intros i Heq; simpl; [done|].
  pose proof (Heq 0%nat kw eq_refl) as H0. rewrite Nat.add_0_r in H0.
  rewrite H0, (IH (S i)); [done|].
  intros j x Hx. specialize (Heq (S j) x Hx). by rewrite Nat.add_succ_r in Heq.
Qed.

(** X6 *)
(** An adapter makes its requests for the first three keywords only:
    two providers that answer those requests alike give the same
    result, whatever they would answer to any other request. *)
Theorem fetch_uses_first_three_keywords key mk (prov prov' : provider)
    keywords location :
  (∀ j kw, (j < 3)%nat → keywords !! j = Some kw →
           prov j kw location = prov' j kw location) →
  fetch_with key mk prov keywords location
  = fetch_with key mk prov' keywords location.
Proof.
  intros Heq. rewrite !fetch_with_collects. apply collected_ext.
  intros j kw [Hj Hlt]%lookup_take_Some. simpl.
  unfold query_alone, query_keyword. by rewrite (Heq j kw Hlt Hj).
Qed.

Lemma fetch_uses_first_three_keywords_witness :
  fetch_with "results" adzuna_record Sample.cook_not_found
    ["a"; "b"; "c"; "driver"] "India"
  = fetch_with "results" adzuna_record Sample.driver_unreachable
      ["a"; "b"; "c"; "driver"] "India".
Proof.
  apply (fetch_uses_first_three_keywords "results" adzuna_record
           Sample.cook_not_found Sample.driver_unreachable).
  intros j kw Hlt Hkw.
  destruct j as [|[|[|j]]]; [| | |lia]; simplify_eq/=; reflexivity.
Defined.

Lemma take_length_le (n : nat) (t : string) :
  (String.length (PyStr.take n t) ≤ n)%nat.
Proof.
  revert t. induction n as [|n IH]; intros t; simpl; [done|].
  destruct t as [|c t]; simpl; [lia|]. specialize (IH t). lia.
Qed.

Lemma slice_to_bound (n : nat) (v w : pyval) :
  Py.slice_to n v = Some w →
  match w with
  | PStr d => (String.length d ≤ n)%nat
  | PList l => (length l ≤ n)%nat
  | _ => False
  end.
Proof.
  destruct v; simpl; intros; simplify_eq.
  - apply take_length_le.
  - rewrite length_take. lia.
Qed.

Ltac record_shape H :=
  repeat match type of H with
         | (?m ≫= _) = Some _ =>
             let v := fresh "v" in
             let E := fresh "E" in
             destruct m as [v|] eqn:E; [simpl in H|discriminate H]
         end;
  injection H as <-.

Lemma adzuna_record_shape location (job : pyval) r :
  adzuna_record location job = Some r → well_shaped "Adzuna" r.
Proof.
  intros H. unfold adzuna_record in H. record_shape H.
  unfold well_shaped. split_and!; [done|done|].
  match goal with E : _ ≫= Py.slice_to 300 = Some _ |- _ =>
    apply bind_Some in E as (x & _ & E); apply slice_to_bound in E end.
  done.
Qed.

Lemma jooble_record_shape location (job : pyval) r :
  jooble_record location job = Some r → well_shaped "Jooble" r.
Proof.
  intros H. unfold jooble_record in H. record_shape H.
  unfold well_shaped. split_and!; [done|done|].
  match goal with E : _ ≫= Py.slice_to 300 = Some _ |- _ =>
    apply bind_Some in E as (x & _ & E); apply slice_to_bound in E end.
  done.
Qed.

Lemma serpapi_record_shape location (job : pyval) r :
  serpapi_record location job = Some r →
  well_shaped "Google Jobs" r
  ∧ Py.dict_get r "salary" = Some (PStr "Not specified").
Proof.
  intros H. unfold serpapi_record in H. record_shape H.
  unfold well_shaped. split_and!; [done|done| |done].
  match goal with E : _ ≫= Py.slice_to 300 = Some _ |- _ =>
    apply bind_Some in E as (x & _ & E); apply slice_to_bound in E end.
  done.
Qed.

(** X7 *)
(** Every record an adapter returns has the seven keys source, title,
    company, location, url, description and salary, in this order; its
    source names the adapter; its description, cut by [[:300]], has at
    most 300 characters; a record of the Google Jobs adapter has the
    salary "Not specified". *)
Theorem adapter_records_well_shaped prov keywords location r :
  (r ∈ fetch_adzuna prov keywords location → well_shaped "Adzuna" r)
  ∧ (r ∈ fetch_jooble prov keywords location → well_shaped "Jooble" r)
  ∧ (r ∈ fetch_serpapi prov keywords location →
     well_shaped "Google Jobs" r
     ∧ Py.dict_get r "salary" = Some (PStr "Not specified")).
Proof.
  split_and!; intros Hr;
    apply fetch_with_elem
      in Hr as (j & kw & data & items & job & _ & _ & _ & _ & _ & Hmk).
  - by apply adzuna_record_shape in Hmk.
  - by apply jooble_record_shape in Hmk.
  - by apply serpapi_record_shape in Hmk.
Qed.

Lemma adapter_records_well_shaped_witness :
  well_shaped "Adzuna" Sample.adzuna_job.
Proof.
  apply (adapter_records_well_shaped Sample.one_listing
           ["Software Engineer"; "Python"] "Pune" Sample.adzuna_job).
  vm_compute. left.
Defined.

End adapter_properties.

(** ** Merging *)

Section merge_properties.

Implicit Types (job r : dict) (before l : list dict) (sources : list (list dict)).

Lemma first_occurrences_app before l1 l2 :
  first_occurrences before (l1 ++ l2)
  = first_occurrences before l1 ++ first_occurrences (before ++ l1) l2.
Proof.
  revert before. induction l1 as [|job l1 IH]; intros before; simpl.
  - by rewrite app_nil_r.
  - rewrite IH, <- !app_assoc. done.
Qed.

(** Records whose keys were all met before add nothing. *)
Lemma first_occurrences_seen before l :
  (∀ r, r ∈ l → has_title r = true →
        ∃ b, b ∈ before ∧ has_title b = true ∧ uid_of b = uid_of r) →
  first_occurrences before l = [].
Proof.
  revert before. induction l as [|job l IH]; intros before Hseen; simpl; [done|].
  assert (first_of_its_key before job = false) as ->.
  { apply not_true_iff_false. intros [Ht Hnew]%first_of_its_key_iff.
    destruct (Hseen job) as (b & Hb & Hbt & Hbu); [by left|done|].
    by apply (Hnew b). }
  simpl. apply IH. intros r Hr Ht.
  destruct (Hseen r) as (b & Hb & Hbt & Hbu); [by right|done|].
  exists b. split_and!; try done. apply elem_of_app. by left.
Qed.

(** Titled records with pairwise different keys, none met before, are
    all kept. *)
Lemma first_occurrences_fresh before l :
  Forall (λ r, has_title r = true) l →
  NoDup (uid_of <$> l) →
  (∀ r b, r ∈ l → b ∈ before → has_title b = true → uid_of b ≠ uid_of r) →
  first_occurrences before l = l.
Proof.
  revert before. induction l as [|job l IH]; intros before Ht Hnd Hfresh; simpl;
    [done|].
  apply Forall_cons in Ht as [Hjt Ht]. rewrite fmap_cons in Hnd.
  apply NoDup_cons in Hnd as [Hjob Hnd].
  assert (first_of_its_key before job = true) as ->.
  { apply first_of_its_key_iff. split; [done|]. intros b Hb Hbt.
    apply Hfresh; [by left|done|done]. }
  simpl. f_equal. apply IH; [done|done|].
  intros r b Hr [Hb| ->%list_elem_of_singleton]%elem_of_app Hbt.
  - apply Hfresh; [by right|done|done].
  - intros Heq. apply Hjob. rewrite Heq. by apply list_elem_of_fmap_2.
Qed.

(** X8 *)
(** Merging is idempotent: merging the result of a merge changes
    nothing. *)
Theorem merge_results_idempotent sources :
  merge_results [merge_results sources] = merge_results sources.
Proof.
  rewrite (merge_results_first_occurrences [_]). simpl. rewrite app_nil_r.
  apply first_occurrences_fresh.
  - apply Forall_forall. intros r Hr.
    rewrite merge_results_first_occurrences in Hr.
    by apply first_occurrences_elem in Hr as (Ht & _).
  - rewrite merge_results_first_occurrences. apply first_occurrences_keys_nodup.
  - by intros r b _ ?%elem_of_nil.
Qed.

(** X9 *)
(** Only the order of the records in the concatenation of the sources
    matters, not how they are grouped into sources. *)
Theorem merge_results_flatten sources :
  merge_results sources = merge_results [concat sources].
Proof.
  rewrite !merge_results_first_occurrences.
  by rewrite concat_cons, concat_nil, app_nil_r.
Qed.

(** X10 *)
(** A source all of whose records already occur in the sources before
    it adds nothing to the merge; so merging a list with itself gives
    the merge of the list. *)
Theorem merge_results_repeated_source sources l :
  (∀ r, r ∈ l → r ∈ concat sources) →
  merge_results (sources ++ [l]) = merge_results sources.
Proof.
  intros Hsub. rewrite !merge_results_first_occurrences.
  rewrite concat_app, concat_cons, concat_nil, app_nil_r, first_occurrences_app.
  rewrite (first_occurrences_seen _ l), app_nil_r; [done|].
  intros r Hr Ht. exists r. split_and!; [|done|done].
  rewrite app_nil_l. by apply Hsub.
Qed.

Lemma merge_results_repeated_source_witness :
  merge_results ([[Sample.driver_a; Sample.untitled]]
                 ++ [[Sample.driver_a; Sample.untitled]])
  = merge_results [[Sample.driver_a; Sample.untitled]].
Proof.
  apply (merge_results_repeated_source [[Sample.driver_a; Sample.untitled]]).
  intros r Hr. exact Hr.
Defined.

End merge_properties.

(** ** The scorer *)

Section scorer_properties.

Implicit Types (job profile : dict) (score : Z) (t d : string).

Lemma score_relevance_unfold job profile :
  score_relevance job profile
  = for_list_field profile "languages" (score_lang (job_desc_of job))
      (score_location job profile
        (score_experience (job_title_of job) profile
          (for_list_field profile "education"
             (score_edu (job_title_of job) (job_desc_of job))
             (for_list_field profile "certifications"
                (score_cert (job_title_of job) (job_desc_of job))
                (for_list_field profile "skills"
                   (score_skill (job_title_of job) (job_desc_of job))
                   (score_role (job_title_of job) (job_desc_of job) profile 0)))))).
Proof. reflexivity. Qed.

Lemma score_relevance_same_text (job1 job2 : dict) profile :
  job_title_of job1 = job_title_of job2 →
  job_desc_of job1 = job_desc_of job2 →
  location_text job1 = location_text job2 →
  score_relevance job1 profile = score_relevance job2 profile.
Proof.
  intros Ht Hd Hl. rewrite !score_relevance_unfold, Ht, Hd.
  unfold score_location. by rewrite Hl.
Qed.

(** X11 *)
(** The score of a job depends on the job only through its lower-cased
    title, its lower-cased description and its lower-cased location:
    two jobs that agree on these score the same for every profile. *)
Theorem score_reads_title_description_location (job1 job2 : dict) profile :
  job_title_of job1 = job_title_of job2 →
  job_desc_of job1 = job_desc_of job2 →
  location_text job1 = location_text job2 →
  score_relevance job1 profile = score_relevance job2 profile.
Proof. apply score_relevance_same_text. Qed.

Lemma score_reads_title_description_location_witness :
  score_relevance Sample.job Sample.profile
  = score_relevance Sample.adzuna_job Sample.profile.
Proof.
  apply (score_reads_title_description_location Sample.job Sample.adzuna_job);
    reflexivity.
Defined.

(** X12 *)
(** Writing any key other than title, description and location into a
    job leaves its score unchanged; in particular the attached
    [relevance_score] does not change what the job scores. *)
Theorem score_ignores_other_keys job profile (k : string) (v : pyval) :
  k ∉ ["title"; "description"; "location"] →
  score_relevance (Py.dict_set job k v) profile = score_relevance job profile.
Proof.
  intros Hk. rewrite !elem_of_cons, elem_of_nil in Hk.
  apply score_relevance_same_text;
    unfold job_title_of, job_desc_of, location_text;
    rewrite !get_or_set_ne; try done; intros ->; tauto.
Qed.

Lemma score_ignores_other_keys_witness :
  score_relevance (Py.dict_set Sample.job "relevance_score" (PInt 30)) Sample.profile
  = score_relevance Sample.job Sample.profile.
Proof.
  apply (score_ignores_other_keys Sample.job Sample.profile "relevance_score").
  rewrite !elem_of_cons, elem_of_nil. intros [?|[?|[?|[]]]]; discriminate.
Defined.

Lemma score_role_set_ne t d profile (k : string) v s :
  k ≠ "role" → score_role t d (Py.dict_set profile k v) s = score_role t d profile s.
Proof. intros. unfold score_role. by rewrite get_or_set_ne. Qed.

Lemma score_experience_set_ne t profile (k : string) v s :
  k ≠ "experience_years" →
  score_experience t (Py.dict_set profile k v) s = score_experience t profile s.
Proof. intros. unfold score_experience. by rewrite get_or_set_ne. Qed.

Lemma score_location_set_ne job profile (k : string) v s :
  k ≠ "location" →
  score_location job (Py.dict_set profile k v) s = score_location job profile s.
Proof.
  intros. unfold score_location, location_text. by rewrite !get_or_set_ne.
Qed.

Lemma for_list_field_list {S : Type} profile (k : string) (body : S → pyval → S)
    (st : S) (l : list pyval) :
  Py.get_or profile k (PList []) = PList l →
  for_list_field profile k body st = foldl body st l.
Proof. intros H. unfold for_list_field. by rewrite H. Qed.

(** Appending an entry to the languages adds that entry's points to the
    score, and nothing else changes. *)
Lemma score_relevance_language_appended job profile (ls : list pyval) (x : pyval) :
  Py.get_or profile "languages" (PList []) = PList ls →
  score_relevance job (Py.dict_set profile "languages" (PList (ls ++ [x])))
  = score_lang (job_desc_of job) (score_relevance job profile) x.
Proof.
  intros Hls. rewrite !score_relevance_unfold.
  rewrite for_list_field_set_eq, !for_list_field_set_ne by done.
  rewrite score_role_set_ne, score_experience_set_ne, score_location_set_ne by done.
  rewrite (for_list_field_list profile "languages" _ _ ls Hls).
  by rewrite foldl_app.
Qed.

(** X13 *)
(** English is never counted: appending the language "english", in any
    letter case and as a string or as an object, leaves the score of
    every job unchanged. *)
Theorem english_language_scores_nothing job profile (ls : list pyval) (t : string) :
  Py.get_or profile "languages" (PList []) = PList ls →
  PyStr.lower t = "english" →
  score_relevance job (Py.dict_set profile "languages" (PList (ls ++ [PStr t])))
  = score_relevance job profile
  ∧ score_relevance job
      (Py.dict_set profile "languages"
         (PList (ls ++ [PDict [("language", PStr t)]])))
    = score_relevance job profile.
Proof.
  intros Hls Ht. rewrite !score_relevance_language_appended by done.
  unfold score_lang. simpl. by rewrite Ht.
Qed.

Lemma english_language_scores_nothing_witness :
  score_relevance Sample.job
    (Py.dict_set Sample.profile "languages" (PList ([] ++ [PStr "English"])))
  = score_relevance Sample.job Sample.profile
  ∧ score_relevance Sample.job
      (Py.dict_set Sample.profile "languages"
         (PList ([] ++ [PDict [("language", PStr "English")]])))
    = score_relevance Sample.job Sample.profile.
Proof.
  apply (english_language_scores_nothing Sample.job Sample.profile [] "English");
    reflexivity.
Defined.

Lemma contains_empty (s : string) : PyStr.contains s "" = true.
Proof. apply contains_iff. by exists "", s. Qed.

(** X14 *)
(** A language given as the empty string is not filtered out (only
    "null", "none" and "english" are) and, the empty string occurring
    in every description, it adds 4 points to the score of every job. *)
Theorem empty_language_scores_four job profile (ls : list pyval) :
  Py.get_or profile "languages" (PList []) = PList ls →
  score_relevance job (Py.dict_set profile "languages" (PList (ls ++ [PStr ""])))
  = score_relevance job profile + 4.
Proof.
  intros Hls. rewrite score_relevance_language_appended by done.
  unfold score_lang. simpl. by rewrite contains_empty.
Qed.

Lemma empty_language_scores_four_witness :
  score_relevance Sample.job
    (Py.dict_set Sample.profile "languages" (PList ([] ++ [PStr ""])))
  = score_relevance Sample.job Sample.profile + 4.
Proof.
  apply (empty_language_scores_four Sample.job Sample.profile []). reflexivity.
Defined.

Lemma at_most_foldl (c : Z) (step : Z → pyval → Z) (l : list pyval) (s : Z) :
  (∀ x, adds_at_most c (λ s, step s x)) →
  foldl step s l ≤ s + c * Z.of_nat (length l).
Proof.
  intros Hstep. revert s. induction l as [|x l IH]; intros s; simpl length.
  - simpl. lia.
  - simpl foldl. specialize (IH (step s x)). specialize (Hstep x s). simpl in Hstep.
    lia.
Qed.

Lemma at_most_for_list_field (c : Z) profile (k : string) (step : Z → pyval → Z) s :
  (∀ x, adds_at_most c (λ s, step s x)) →
  for_list_field profile k step s ≤ s + c * list_field_length profile k.
Proof.
  intros Hstep. unfold for_list_field, list_field_length.
  destruct (Py.get_or profile k (PList [])); try lia.
  by apply at_most_foldl.
Qed.

Lemma at_most_role t d profile : adds_at_most 22 (score_role t d profile).
Proof. intros s. unfold score_role. repeat case_match; lia. Qed.

Lemma at_most_skill t d x : adds_at_most 14 (λ s, score_skill t d s x).
Proof. intros s. unfold score_skill, skill_points. repeat case_match; lia. Qed.

Lemma at_most_cert t d x : adds_at_most 8 (λ s, score_cert t d s x).
Proof. intros s. unfold score_cert, either_points. repeat case_match; lia. Qed.

Lemma at_most_edu t d x : adds_at_most 6 (λ s, score_edu t d s x).
Proof. intros s. unfold score_edu, either_points. repeat case_match; lia. Qed.

Lemma at_most_lang d x : adds_at_most 4 (λ s, score_lang d s x).
Proof. intros s. unfold score_lang. repeat case_match; lia. Qed.

Lemma at_most_experience t profile : adds_at_most 5 (score_experience t profile).
Proof.
  intros s. unfold score_experience, experience_band. repeat case_match; lia.
Qed.

Lemma at_most_location_parts jl parts : adds_at_most 3 (score_location_parts jl parts).
Proof.
  intros s. induction parts as [|part parts IH]; simpl; [lia|].
  case_match; lia.
Qed.

Lemma at_most_location job profile : adds_at_most 11 (score_location job profile).
Proof.
  intros s. unfold score_location. case_match; [|lia].
  etrans; [apply at_most_location_parts|]. case_match; lia.
Qed.

(** X15 *)
(** The score of a job is at most the bound fixed by the size of the
    profile: 22 for the role, 14 per skill, 8 per certification, 6 per
    degree, 5 for the experience level, 11 for the location and 4 per
    language. *)
Theorem score_relevance_bounded job profile :
  score_relevance job profile ≤ score_bound profile.
Proof.
  rewrite score_relevance_unfold. unfold score_bound.
  set (t := job_title_of job). set (d := job_desc_of job).
  pose proof (at_most_role t d profile 0) as H1.
  set (s1 := score_role t d profile 0) in *.
  pose proof (at_most_for_list_field 14 profile "skills" _ s1 (at_most_skill t d)) as H2.
  set (s2 := for_list_field profile "skills" _ s1) in *.
  pose proof (at_most_for_list_field 8 profile "certifications" _ s2
                (at_most_cert t d)) as H3.
  set (s3 := for_list_field profile "certifications" _ s2) in *.
  pose proof (at_most_for_list_field 6 profile "education" _ s3 (at_most_edu t d)) as H4.
  set (s4 := for_list_field profile "education" _ s3) in *.
  pose proof (at_most_experience t profile s4) as H5.
  set (s5 := score_experience t profile s4) in *.
  pose proof (at_most_location job profile s5) as H6.
  set (s6 := score_location job profile s5) in *.
  pose proof (at_most_for_list_field 4 profile "languages" _ s6 (at_most_lang d)) as H7.
  lia.
Qed.

End scorer_properties.

(** ** Searching *)

Set Warnings "-clear-no-such-hyp".

Section search_properties.

Implicit Types (job profile : dict) (l : list dict) (w : world).

Lemma str_of_int_nonempty (z : Z) : Py.str_of_int z ≠ "".
Proof.
  unfold Py.str_of_int. destruct (Z.to_int z) as [d|d]; simpl.
  - by destruct d.
  - done.
Qed.

(** X16 *)
(** The location handed to the adapters is never the empty string: a
    missing, empty or null-like profile location is replaced by
    "India". *)
Theorem search_location_nonempty profile : search_location profile ≠ "".
Proof.
  unfold search_location.
  destruct (Py.get_or profile "location" (PStr "")) as [|b|z|t|l|d]; simpl;
    try done.
  - by destruct b.
  - destruct (z =? 0); simpl; [done|apply str_of_int_nonempty].
  - destruct (String.eqb t "") eqn:E; simpl; [done|].
    case_match; [done|]. by apply String.eqb_neq.
  - destruct l; simpl; [done|]. by rewrite str_app_cons.
  - destruct d; simpl; [done|]. by rewrite str_app_cons.
Qed.

Lemma insert_desc_head (key : dict → Z) (x : dict) l :
  (∀ y, head l = Some y → key y ≤ key x) →
  insert_desc key x l = x :: l.
Proof.
  intros Hhead. destruct l as [|y l]; simpl; [done|].
  specialize (Hhead y eq_refl). apply Z.leb_le in Hhead. by rewrite Hhead.
Qed.

(** Cutting a sorted list at a threshold commutes with inserting. *)
Lemma insert_desc_filter (key : dict → Z) (m : Z) (x : dict) l :
  StronglySorted (λ a b, key b ≤ key a) l →
  filter (λ r, m ≤ key r) (insert_desc key x l)
  = if decide (m ≤ key x)
    then insert_desc key x (filter (λ r, m ≤ key r) l)
    else filter (λ r, m ≤ key r) l.
Proof.
  induction 1 as [|y l Hl IH Hy]; simpl.
  - rewrite filter_cons, filter_nil. by case_decide.
  - destruct (key y <=? key x) eqn:E.
    + apply Z.leb_le in E. rewrite !filter_cons.
      destruct (decide (m ≤ key x)) as [Hx|Hx].
      * destruct (decide (m ≤ key y)) as [Hmy|Hmy].
        -- simpl. apply Z.leb_le in E. by rewrite E.
        -- symmetry. apply insert_desc_head.
           intros z Hz. apply head_Some_elem_of, list_elem_of_filter in Hz as [_ Hz].
           rewrite Forall_forall in Hy. specialize (Hy z Hz). simpl in Hy. lia.
      * rewrite decide_False by lia. done.
    + apply Z.leb_gt in E. rewrite !filter_cons, IH.
      destruct (decide (m ≤ key x)) as [Hx|Hx].
      * destruct (decide (m ≤ key y)) as [Hmy|Hmy]; [|lia]. simpl.
        apply Z.leb_gt in E. by rewrite E.
      * done.
Qed.

Lemma sort_desc_filter (key : dict → Z) (m : Z) l :
  filter (λ r, m ≤ key r) (sort_desc key l)
  = sort_desc key (filter (λ r, m ≤ key r) l).
Proof.
  induction l as [|x l IH]; simpl; [done|].
  rewrite insert_desc_filter by apply sort_desc_sorted.
  rewrite filter_cons, IH. by case_decide.
Qed.

Lemma reaching_raise profile (m m' : Z) l :
  m ≤ m' →
  filter (λ r, m' ≤ relevance_key r) (annotate profile <$> reaching profile m l)
  = annotate profile <$> reaching profile m' l.
Proof.
  intros Hle. unfold reaching. induction l as [|j l IH]; [done|].
  rewrite !(filter_cons _ j).
  destruct (decide (m ≤ score_relevance j profile)) as [Hm|Hm].
  - rewrite fmap_cons, filter_cons, relevance_key_annotate, IH.
    by case_decide.
  - rewrite decide_False by lia. done.
Qed.

(** X17 *)
(** Raising the threshold only cuts the ranking: the result for a
    larger [min_score] is the result for the smaller one without the
    records below the larger threshold, in the same order. *)
Theorem search_jobs_threshold_monotone w profile (m m' : Z) :
  m ≤ m' →
  search_jobs w profile m' = at_least m' (search_jobs w profile m).
Proof.
  intros Hle. unfold search_jobs, at_least. rewrite !rank_jobs_sort.
  by rewrite sort_desc_filter, reaching_raise.
Qed.

Lemma search_jobs_threshold_monotone_witness :
  search_jobs Sample.one_job_world Sample.profile 100
  = at_least 100 (search_jobs Sample.one_job_world Sample.profile 5).
Proof.
  apply (search_jobs_threshold_monotone Sample.one_job_world Sample.profile 5 100).
  lia.
Defined.

Lemma reaching_all profile (m : Z) l : m ≤ 0 → reaching profile m l = l.
Proof.
  intros Hm. unfold reaching. induction l as [|j l IH]; [done|].
  pose proof (score_relevance_nonneg j profile).
  rewrite filter_cons, decide_True by lia. by rewrite IH.
Qed.

(** X18 *)
(** A threshold of zero or less filters nothing, scores being never
    negative: the result holds every merged job, with its score. *)
Theorem search_jobs_nonpositive_threshold w profile (m : Z) :
  m ≤ 0 →
  search_jobs w profile m ≡ₚ annotate profile <$> collect_jobs w profile
  ∧ length (search_jobs w profile m) = length (collect_jobs w profile).
Proof.
  intros Hm. unfold search_jobs. rewrite rank_jobs_sort, reaching_all by done.
  split; [apply sort_desc_perm|].
  by rewrite sort_desc_perm, length_fmap.
Qed.

Lemma search_jobs_nonpositive_threshold_witness :
  search_jobs Sample.one_job_world Sample.profile 0
    ≡ₚ annotate Sample.profile <$> collect_jobs Sample.one_job_world Sample.profile
  ∧ length (search_jobs Sample.one_job_world Sample.profile 0)
    = length (collect_jobs Sample.one_job_world Sample.profile).
Proof.
  apply (search_jobs_nonpositive_threshold Sample.one_job_world Sample.profile 0).
  lia.
Defined.

Lemma search_jobs_scores w profile (m : Z) :
  Forall (λ r, m ≤ relevance_key r) (search_jobs w profile m).
Proof.
  unfold search_jobs. rewrite rank_jobs_sort, sort_desc_perm.
  apply Forall_fmap, Forall_forall. intros j Hj. simpl.
  rewrite relevance_key_annotate. unfold reaching in Hj.
  by apply list_elem_of_filter in Hj as [? _].
Qed.

(** X19 *)
(** For a profile that is a non-empty object the handler of
    [POST /search_jobs] answers with status "success", the jobs of the
    search at threshold 3 and their number as count; every job returned
    has a score of at least 3; provider failures never make it fail. *)
Theorem search_jobs_endpoint_success w (payload p : dict) :
  Py.get_or payload "profile" PNone = PDict p →
  p ≠ [] →
  search_jobs_endpoint w payload
  = Returned [("status", PStr "success");
              ("jobs", PList (PDict <$> search_jobs w p 3));
              ("count", PInt (Z.of_nat (length (search_jobs w p 3))))]
  ∧ Forall (λ r, 3 ≤ relevance_key r) (search_jobs w p 3)
  ∧ StronglySorted ranks_before (search_jobs w p 3).
Proof.
  intros Hp Hne. split_and!.
  - unfold search_jobs_endpoint. rewrite Hp. by destruct p.
  - apply search_jobs_scores.
  - unfold search_jobs. rewrite rank_jobs_sort. apply sort_desc_sorted.
Qed.

Lemma search_jobs_endpoint_success_witness :
  search_jobs_endpoint Sample.one_job_world [("profile", PDict Sample.profile)]
  = Returned [("status", PStr "success");
              ("jobs", PList (PDict <$> search_jobs Sample.one_job_world Sample.profile 3));
              ("count", PInt (Z.of_nat
                 (length (search_jobs Sample.one_job_world Sample.profile 3))))]
  ∧ Forall (λ r, 3 ≤ relevance_key r) (search_jobs Sample.one_job_world Sample.profile 3)
  ∧ StronglySorted ranks_before (search_jobs Sample.one_job_world Sample.profile 3).
Proof.
  apply (search_jobs_endpoint_success Sample.one_job_world
           [("profile", PDict Sample.profile)] Sample.profile);
    [reflexivity|discriminate].
Defined.


End search_properties.

(** ** The pipeline *)

Section pipeline_properties.

Implicit Types (job r : dict) (profile : dict) (w : world) (l : list dict).

Lemma dict_set_keys_fresh (d : dict) (k : string) (v : pyval) :
  k ∉ d.*1 → (Py.dict_set d k v).*1 = d.*1 ++ [k].
Proof.
  induction d as [|[k' v'] d IH]; [done|].
  intros Hk. rewrite fmap_cons in Hk. apply not_elem_of_cons in Hk as [Hne Hk].
  cbn [Py.dict_set].
  assert (String.eqb k' k = false) as -> by (by apply String.eqb_neq).
  by rewrite !fmap_cons, IH.
Qed.

Lemma collect_jobs_concat w profile :
  collect_jobs w profile
  = first_occurrences []
      (adzuna_jobs w profile ++ jooble_jobs w profile ++ serpapi_jobs w profile).
Proof.
  unfold collect_jobs. rewrite merge_results_first_occurrences.
  by rewrite !concat_cons, concat_nil, app_nil_r.
Qed.

Lemma collect_jobs_elem w profile r :
  r ∈ collect_jobs w profile →
  has_title r = true
  ∧ (r ∈ adzuna_jobs w profile ∨ r ∈ jooble_jobs w profile
     ∨ r ∈ serpapi_jobs w profile).
Proof.
  rewrite collect_jobs_concat.
  intros (Ht & Hin & _)%first_occurrences_elem. split; [done|].
  by rewrite !elem_of_app in Hin.
Qed.

Lemma adapter_job_shape w profile r :
  r ∈ adzuna_jobs w profile ∨ r ∈ jooble_jobs w profile
  ∨ r ∈ serpapi_jobs w profile →
  ∃ source, source ∈ ["Adzuna"; "Jooble"; "Google Jobs"] ∧ well_shaped source r.
Proof.
  intros [Hr|[Hr|Hr]];
    apply fetch_with_elem
      in Hr as (j & kw & data & items & job & _ & _ & _ & _ & _ & Hmk).
  - exists "Adzuna". split; [set_solver|by apply adzuna_record_shape in Hmk].
  - exists "Jooble". split; [set_solver|by apply jooble_record_shape in Hmk].
  - exists "Google Jobs". split; [set_solver|].
    by apply serpapi_record_shape in Hmk as [? _].
Qed.

Lemma search_jobs_elem w profile (m : Z) r :
  r ∈ search_jobs w profile m →
  ∃ j, j ∈ collect_jobs w profile
       ∧ m ≤ score_relevance j profile
       ∧ r = annotate profile j.
Proof.
  unfold search_jobs. rewrite rank_jobs_sort, sort_desc_perm.
  intros (j & -> & Hj)%list_elem_of_fmap. unfold reaching in Hj.
  apply list_elem_of_filter in Hj as [Hm Hj]. by exists j.
Qed.

(** X22 *)
(** Every record of a search result is a titled record of one of the
    three adapters with its score attached: it has the seven keys of an
    adapter record followed by relevance_score, names its source, and
    its relevance_score is an integer that reaches [min_score]. *)
Theorem search_result_record_shape w profile (min_score : Z) r :
  r ∈ search_jobs w profile min_score →
  r.*1 = record_keys ++ ["relevance_score"]
  ∧ has_title r = true
  ∧ (∃ source, source ∈ ["Adzuna"; "Jooble"; "Google Jobs"]
               ∧ Py.dict_get r "source" = Some (PStr source))
  ∧ (∃ z, min_score ≤ z ∧ Py.dict_get r "relevance_score" = Some (PInt z)).
Proof.
  intros (j & Hj & Hm & ->)%search_jobs_elem.
  apply collect_jobs_elem in Hj as [Ht Hj].
  apply adapter_job_shape in Hj as (source & Hsource & Hkeys & Hsrc & _).
  unfold annotate. split_and!.
  - rewrite dict_set_keys_fresh, Hkeys; [done|].
    rewrite Hkeys. unfold record_keys. rewrite !elem_of_cons, elem_of_nil.
    naive_solver.
  - unfold has_title in *. by rewrite get_or_set_ne.
  - exists source. split; [done|]. by rewrite dict_get_set_ne.
  - eexists. split; [exact Hm|]. apply dict_get_set_eq.
Qed.

Lemma search_result_record_shape_witness :
  (Py.dict_set Sample.adzuna_job "relevance_score" (PInt 30)).*1
    = record_keys ++ ["relevance_score"]
  ∧ has_title (Py.dict_set Sample.adzuna_job "relevance_score" (PInt 30)) = true
  ∧ (∃ source, source ∈ ["Adzuna"; "Jooble"; "Google Jobs"]
               ∧ Py.dict_get (Py.dict_set Sample.adzuna_job "relevance_score" (PInt 30))
                   "source" = Some (PStr source))
  ∧ (∃ z, 5 ≤ z
          ∧ Py.dict_get (Py.dict_set Sample.adzuna_job "relevance_score" (PInt 30))
              "relevance_score" = Some (PInt z)).
Proof.
  apply (search_result_record_shape Sample.one_job_world Sample.profile 5).
  vm_compute. left.
Defined.

(** A kept record whose key occurs, with a title, in the first part of
    the concatenation comes from that part. *)
Lemma first_occurrences_priority l1 l2 r a :
  r ∈ first_occurrences [] (l1 ++ l2) →
  a ∈ l1 → has_title a = true → uid_of a = uid_of r →
  r ∈ l1.
Proof.
  rewrite first_occurrences_app, app_nil_l.
  intros [Hr|Hr]%elem_of_app Ha Hat Hau.
  - by apply first_occurrences_elem in Hr as (_ & ? & _).
  - apply first_occurrences_elem in Hr as (_ & _ & Hnew).
    by destruct (Hnew a Ha Hat).
Qed.

(** X23 *)
(** Between sources the order of the calls decides: when Adzuna
    returned a titled record of some key, the merged record of that key
    is Adzuna's; when Jooble returned one, the merged record of that
    key is Adzuna's or Jooble's, never the one of Google Jobs. *)
Theorem merged_record_source_priority w profile r :
  r ∈ collect_jobs w profile →
  (∀ a, a ∈ adzuna_jobs w profile → has_title a = true → uid_of a = uid_of r →
        r ∈ adzuna_jobs w profile
        ∧ Py.dict_get r "source" = Some (PStr "Adzuna"))
  ∧ (∀ b, b ∈ jooble_jobs w profile → has_title b = true → uid_of b = uid_of r →
          (r ∈ adzuna_jobs w profile ∨ r ∈ jooble_jobs w profile)
          ∧ Py.dict_get r "source" ≠ Some (PStr "Google Jobs")).
Proof.
  rewrite collect_jobs_concat. intros Hr. split.
  - intros a Ha Hat Hau.
    pose proof (first_occurrences_priority _ _ r a Hr Ha Hat Hau) as Hin.
    split; [done|].
    apply fetch_with_elem
      in Hin as (j & kw & data & items & job & _ & _ & _ & _ & _ & Hmk).
    by apply adzuna_record_shape in Hmk as (_ & ? & _).
  - intros b Hb Hbt Hbu. rewrite app_assoc in Hr.
    assert (b ∈ adzuna_jobs w profile ++ jooble_jobs w profile) as Hb'
      by (apply elem_of_app; by right).
    pose proof (first_occurrences_priority _ _ r b Hr Hb' Hbt Hbu) as Hin.
    apply elem_of_app in Hin. split; [done|].
    destruct Hin as [Hin|Hin];
      apply fetch_with_elem
        in Hin as (j & kw & data & items & job & _ & _ & _ & _ & _ & Hmk).
    + apply adzuna_record_shape in Hmk as (_ & Hsrc & _). by rewrite Hsrc.
    + apply jooble_record_shape in Hmk as (_ & Hsrc & _). by rewrite Hsrc.
Qed.

Lemma merged_record_source_priority_witness :
  Sample.adzuna_job ∈ adzuna_jobs Sample.one_job_world Sample.profile
  ∧ Py.dict_get Sample.adzuna_job "source" = Some (PStr "Adzuna").
Proof.
  destruct (merged_record_source_priority Sample.one_job_world Sample.profile
              Sample.adzuna_job) as [Hadzuna _].
  - vm_compute. left.
  - apply (Hadzuna Sample.adzuna_job); [vm_compute; left|reflexivity|reflexivity].
Defined.

End pipeline_properties.
